(** * adoptium-jdk-dl: download, verify and extract Adoptium JDK builds

    A shallow embedding of [adoptium-jdk-dl.py].  The script talks to the
    network, the file system and the standard output; these are threaded
    through an explicit [World], and the script's exceptions through a
    result type.  What the Python libraries answer (HTTP, JSON parsing,
    tar decoding, temporary names, error messages) is taken from an [Env]
    record of oracles.  SHA-256, hexadecimal decoding and [os.path] are
    written out, and so is what [open], [os.makedirs], [shutil.copy],
    [shutil.rmtree] and [TarFile.extractall] do to a file system of
    directories and regular files. *)

From Stdlib Require Import ZArith List String Ascii Bool Lia.
From Stdlib Require Import Strings.Byte.
From stdpp Require Import base option list strings gmap.

Import ListNotations.
Local Open Scope string_scope.
Local Open Scope Z_scope.

(** ** Bytes *)

Abbreviation bytes := (list byte).

Definition Z_of_byte (b : byte) : Z := Z.of_N (Byte.to_N b).

Definition byte_of_Z (x : Z) : byte :=
  match Byte.of_N (Z.to_N (x mod 256)) with
  | Some b => b
  | None => x00
  end.

Definition bytes_of_string (s : string) : bytes := list_byte_of_string s.

(** Big-endian encoding of [x] on [n] bytes. *)
Fixpoint be_bytes (n : nat) (x : Z) : bytes :=
  match n with
  | O => []
  | S k => byte_of_Z (Z.shiftr x (8 * Z.of_nat k)) :: be_bytes k x
  end.

(** ** SHA-256 (FIPS 180-4), the function behind [hashlib.sha256] *)

Module SHA256.

Definition mask32 : Z := 0xffffffff.
Definition add32 (x y : Z) : Z := Z.land (x + y) mask32.
Definition not32 (x : Z) : Z := Z.lxor x mask32.
Definition shr (n x : Z) : Z := Z.shiftr x n.
Definition rotr (n x : Z) : Z :=
  Z.lor (Z.shiftr x n) (Z.land (Z.shiftl x (32 - n)) mask32).

Definition Ch (x y z : Z) : Z := Z.lxor (Z.land x y) (Z.land (not32 x) z).
Definition Maj (x y z : Z) : Z :=
  Z.lxor (Z.lxor (Z.land x y) (Z.land x z)) (Z.land y z).
Definition Sigma0 (x : Z) : Z := Z.lxor (Z.lxor (rotr 2 x) (rotr 13 x)) (rotr 22 x).
Definition Sigma1 (x : Z) : Z := Z.lxor (Z.lxor (rotr 6 x) (rotr 11 x)) (rotr 25 x).
Definition sigma0 (x : Z) : Z := Z.lxor (Z.lxor (rotr 7 x) (rotr 18 x)) (shr 3 x).
Definition sigma1 (x : Z) : Z := Z.lxor (Z.lxor (rotr 17 x) (rotr 19 x)) (shr 10 x).

(** The constants are taken from their definition: the first 32 bits of
    the fractional parts of the cube roots of the first 64 primes, and of
    the square roots of the first 8 for the initial state. *)
Definition is_prime (n : Z) : bool :=
  forallb (fun d => negb (n mod d =? 0)) (map Z.of_nat (seq 2 (Z.to_nat n - 2))).

Definition primes : list Z := List.filter is_prime (map Z.of_nat (seq 2 310)).

(** The floor of the cube root of [n], found bit by bit from bit [bits]
    down. *)
Fixpoint cube_root (bits : nat) (n r : Z) : Z :=
  match bits with
  | O => r
  | S k =>
      let r' := r + 2 ^ Z.of_nat k in
      cube_root k n (if r' * r' * r' <=? n then r' else r)
  end.

Definition K : list Z :=
  Eval vm_compute in
    map (fun p => Z.land (cube_root 44 (p * 2 ^ 96) 0) mask32) primes.

Record state := State { sa : Z; sb : Z; sc : Z; sd : Z; se : Z; sf : Z; sg : Z; sh : Z }.

Definition state_of (ws : list Z) : state :=
  match ws with
  | [a; b; c; d; e; f; g; h] => State a b c d e f g h
  | _ => State 0 0 0 0 0 0 0 0
  end.

Definition H0 : state :=
  Eval vm_compute in
    state_of (map (fun p => Z.land (Z.sqrt (p * 2 ^ 64)) mask32) (firstn 8 primes)).

(** Padding: a 1 bit, zeros up to 56 mod 64 bytes, the bit length on 8 bytes. *)
Definition pad (msg : bytes) : bytes :=
  let l := Z.of_nat (length msg) in
  msg ++ [x80] ++ repeat x00 (Z.to_nat ((55 - l) mod 64)) ++ be_bytes 8 (8 * l).

(** The sixteen big-endian words of a 64-byte block. *)
Fixpoint words (n : nat) (block : bytes) : list Z :=
  match n, block with
  | S k, b0 :: b1 :: b2 :: b3 :: rest =>
      (Z.shiftl (Z_of_byte b0) 24 + Z.shiftl (Z_of_byte b1) 16
       + Z.shiftl (Z_of_byte b2) 8 + Z_of_byte b3) :: words k rest
  | _, _ => []
  end.

(** The message schedule, kept most recent word first while it grows. *)
Fixpoint extend (n : nat) (w : list Z) : list Z :=
  match n with
  | O => w
  | S k =>
      let x := add32 (add32 (sigma1 (nth 1 w 0)) (nth 6 w 0))
                     (add32 (sigma0 (nth 14 w 0)) (nth 15 w 0)) in
      extend k (x :: w)
  end.

Definition schedule (block : bytes) : list Z :=
  rev (extend 48 (rev (words 16 block))).

Definition round (s : state) (kw : Z * Z) : state :=
  let t1 := add32 (add32 (add32 (sh s) (Sigma1 (se s)))
                         (add32 (Ch (se s) (sf s) (sg s)) (fst kw))) (snd kw) in
  let t2 := add32 (Sigma0 (sa s)) (Maj (sa s) (sb s) (sc s)) in
  State (add32 t1 t2) (sa s) (sb s) (sc s) (add32 (sd s) t1) (se s) (sf s) (sg s).

Definition compress (h : state) (block : bytes) : state :=
  let s := fold_left round (combine K (schedule block)) h in
  State (add32 (sa h) (sa s)) (add32 (sb h) (sb s)) (add32 (sc h) (sc s))
        (add32 (sd h) (sd s)) (add32 (se h) (se s)) (add32 (sf h) (sf s))
        (add32 (sg h) (sg s)) (add32 (sh h) (sh s)).

Fixpoint blocks (fuel : nat) (h : state) (msg : bytes) : state :=
  match fuel, msg with
  | S k, _ :: _ => blocks k (compress h (firstn 64 msg)) (skipn 64 msg)
  | _, _ => h
  end.

Definition output (s : state) : bytes :=
  flat_map (be_bytes 4) [sa s; sb s; sc s; sd s; se s; sf s; sg s; sh s].

Definition sha256 (msg : bytes) : bytes :=
  let p := pad msg in output (blocks (length p) H0 p).

End SHA256.

(** ** Hexadecimal decoding: [codecs.decode(s, 'hex')], that is
    [binascii.unhexlify]: two digits per byte, either case, and an error on
    an odd length or on any other character. *)

Definition hex_digit (c : ascii) : option Z :=
  let n := Z.of_N (N_of_ascii c) in
  if (48 <=? n) && (n <=? 57) then Some (n - 48)
  else if (97 <=? n) && (n <=? 102) then Some (n - 87)
  else if (65 <=? n) && (n <=? 70) then Some (n - 55)
  else None.

Fixpoint unhexlify (s : string) : option bytes :=
  match s with
  | EmptyString => Some []
  | String hi (String lo rest) =>
      match hex_digit hi, hex_digit lo, unhexlify rest with
      | Some h, Some l, Some bs => Some (byte_of_Z (16 * h + l) :: bs)
      | _, _, _ => None
      end
  | String _ EmptyString => None
  end.

Definition hex_char (n : Z) : ascii :=
  ascii_of_N (Z.to_N (if n <? 10 then 48 + n else 87 + n)).

Fixpoint hexlify (bs : bytes) : string :=
  match bs with
  | [] => EmptyString
  | b :: rest =>
      String (hex_char (Z_of_byte b / 16))
             (String (hex_char (Z_of_byte b mod 16)) (hexlify rest))
  end.

#[global] Instance byte_eq_dec : EqDecision byte := Byte.byte_eq_dec.

(** ** Python values *)

#[local] Set Warnings "-register-all".

(** What [json.loads] returns.  A number keeps its literal: the script never
    computes with one. *)
Inductive json : Type :=
| JNull
| JBool (b : bool)
| JNum (literal : string)
| JStr (s : string)
| JArr (items : list json)
| JObj (fields : list (string * json)).

(** A Python [dict] with string keys: insertion order is kept, because
    [json.dumps(..., sort_keys=False)] writes the keys in that order. *)
Abbreviation pydict := (list (string * json)).

Fixpoint dict_get (d : pydict) (k : string) : option json :=
  match d with
  | [] => None
  | (k', v) :: rest => if String.eqb k' k then Some v else dict_get rest k
  end.

(** [d[k] = v]: an existing key keeps its place, a new key goes last. *)
Fixpoint dict_set (d : pydict) (k : string) (v : json) : pydict :=
  match d with
  | [] => [(k, v)]
  | (k', v') :: rest =>
      if String.eqb k' k then (k, v) :: rest else (k', v') :: dict_set rest k v
  end.

Definition keys (d : pydict) : list string := map fst d.

(** ** Exceptions *)

(** The exception classes the script raises itself, and [LibraryError] for
    what a library call raises ([urllib.error.URLError], [OSError],
    [tarfile.ReadError], [binascii.Error], [json.JSONDecodeError]); every
    one of them is a subclass of [Exception]. *)
Inductive exn : Type :=
| Exception (args : list string)
| ValueError (msg : string)
| KeyError (key : string)
| TypeError (msg : string)
| AttributeError (msg : string)
| NameError (msg : string)
| LibraryError (cls msg : string).

(** The names the specification gives to the script's own failures. *)
Definition CatalogEmpty : exn := Exception ["no adoptium jdk/jre assets found"].
Definition UnsupportedArchitecture : exn :=
  Exception ["unsupported architecture, got: None"].
Definition ChecksumMismatch (ver : string) : exn :=
  Exception ["checksum mismatch: java " ++ ver].
Definition FilenameMissing (url : string) : exn :=
  Exception ["filename missing for url: %s"; url].
Definition UnsupportedArchiveFormat (asset_package : string) : exn :=
  ValueError ("unexpected asset archive: " ++ asset_package).

(** [str(ex)], what [print(ex)] writes.  An [Exception] with several
    arguments prints as the tuple of their [repr]s; a library exception
    carries the message the library gave it. *)
Definition repr (s : string) : string := "'" ++ s ++ "'".

Definition str_exn (e : exn) : string :=
  match e with
  | Exception [] => ""
  | Exception [msg] => msg
  | Exception args => "(" ++ String.concat ", " (map repr args) ++ ")"
  | ValueError msg | TypeError msg | AttributeError msg | NameError msg => msg
  | KeyError key => repr key
  | LibraryError _ msg => msg
  end.

Inductive result (A : Type) : Type :=
| Ok (a : A)
| Raise (e : exn).
Arguments Ok {A} a.
Arguments Raise {A} e.

(** ** The world the script runs in *)

Inductive node : Type :=
| Dir
| File (data : bytes).

(** A place in the file system: the names from the root down to it, the
    root being the empty list.  The file system maps places to nodes; a path
    reaches a place by the walk defined below.  [requests] are the URLs
    opened so far, oldest first; [stdout] what each [print] call wrote,
    oldest first; [tmpdirs] counts the temporary directories created.
    There are directories and regular files, no links, and the script may
    read and write every place. *)
Abbreviation location := (list string).

Record World : Type := mkWorld {
  fs : gmap (list string) node;
  requests : list string;
  stdout : list string;
  tmpdirs : nat }.

Module http.
Record response : Type := mkResponse {
  get_filename : option string;
  body : bytes }.
End http.

Module tarfile.
Record TarInfo : Type := mkTarInfo {
  name : string;
  isdir : bool;
  data : bytes }.
End tarfile.

(** What the libraries and the host answer.  [urlopen] is [None] when the
    request fails; [json_loads] is [None] when the body is not JSON;
    [tarfile_open mode data] lists the members of the archive held in
    [data], and is [None] when it is not an archive of that compression;
    [mkdtemp n] is the name of the [n]-th temporary directory;
    [json_dumps] is [json.dumps(..., sort_keys=False, indent=2)];
    [getcwd] is the place of the working directory; [strerror cls arg] is
    the message, [str(ex)], of the library exception of class [cls] raised
    about [arg], and [tarfile_error mode data] that of the [ReadError]
    raised on opening [data]; [makedir_tolerant] tells which [tarfile] is
    at work: up to Python 3.11 [TarFile.makedir] passes over every
    [FileExistsError], later ones only over that of a directory. *)
Record Env : Type := mkEnv {
  platform_system : string;
  platform_machine : string;
  urlopen : string -> option http.response;
  json_loads : bytes -> option json;
  tarfile_open : string -> bytes -> option (list tarfile.TarInfo);
  mkdtemp : nat -> string;
  abspath : string -> string;
  json_dumps : list pydict -> string;
  getcwd : list string;
  strerror : string -> string -> string;
  tarfile_error : string -> bytes -> string;
  makedir_tolerant : bool }.

(** ** State and exceptions *)

Definition M (A : Type) : Type := World -> result A * World.

Definition ret {A} (a : A) : M A := fun w => (Ok a, w).

Definition raise {A} (e : exn) : M A := fun w => (Raise e, w).

Definition bind {A B} (m : M A) (f : A -> M B) : M B :=
  fun w =>
    match m w with
    | (Ok a, w') => f a w'
    | (Raise e, w') => (Raise e, w')
    end.

Notation "'let*' x ':=' m 'in' f" := (bind m (fun x => f))
  (at level 10, x pattern, m at level 100, f at level 200).

Notation "m1 '>>' m2" := (bind m1 (fun _ => m2))
  (at level 65, right associativity).

(** [try: m except Exception as ex: h ex] *)
Definition try_except {A} (m : M A) (h : exn -> M A) : M A :=
  fun w =>
    match m w with
    | (Ok a, w') => (Ok a, w')
    | (Raise e, w') => h e w'
    end.

Definition printed (line : string) (w : World) : World :=
  mkWorld (fs w) (requests w) (stdout w ++ [line]) (tmpdirs w).

Definition logged (url : string) (w : World) : World :=
  mkWorld (fs w) (requests w ++ [url]) (stdout w) (tmpdirs w).

Definition set_fs (f : gmap (list string) node) (w : World) : World :=
  mkWorld f (requests w) (stdout w) (tmpdirs w).

Definition print (line : string) : M unit :=
  fun w => (Ok tt, printed line w).

(** The channels of a world, everything but its files, are the same. *)
Definition same_channels (w w' : World) : Prop :=
  requests w' = requests w /\ stdout w' = stdout w /\ tmpdirs w' = tmpdirs w.

(** ** [os.path] (posixpath) *)

Definition sep : ascii := "/"%char.

Fixpoint endswith (s suffix : string) : bool :=
  String.eqb s suffix ||
  match s with
  | EmptyString => false
  | String _ rest => endswith rest suffix
  end.

Definition startswith_sep (s : string) : bool :=
  match s with
  | String c _ => Ascii.eqb c sep
  | EmptyString => false
  end.

Fixpoint has_sep (s : string) : bool :=
  match s with
  | EmptyString => false
  | String c rest => Ascii.eqb c sep || has_sep rest
  end.

(** [p[:p.rfind('/') + 1]] *)
Fixpoint head_of (p : string) : string :=
  match p with
  | EmptyString => EmptyString
  | String c rest =>
      if has_sep rest then String c (head_of rest)
      else if Ascii.eqb c sep then String c EmptyString
      else EmptyString
  end.

(** [s.rstrip('/')] *)
Fixpoint rstrip_sep (s : string) : string :=
  match s with
  | EmptyString => EmptyString
  | String c rest =>
      match rstrip_sep rest with
      | EmptyString => if Ascii.eqb c sep then EmptyString else String c EmptyString
      | r => String c r
      end
  end.

Module os_path.

(** The head is stripped of trailing slashes unless it is made of slashes
    only. *)
Definition dirname (p : string) : string :=
  let head := head_of p in
  match rstrip_sep head with
  | EmptyString => head
  | stripped => stripped
  end.

Definition join (a b : string) : string :=
  if startswith_sep b then b
  else if String.eqb a "" || endswith a "/" then a ++ b
  else a ++ "/" ++ b.

End os_path.

Fixpoint basename (p : string) : string :=
  match p with
  | EmptyString => EmptyString
  | String c rest =>
      if has_sep rest then basename rest
      else if Ascii.eqb c sep then rest
      else p
  end.

(** ** Paths and places *)

(** [s.split('/')] *)
Fixpoint split_sep (s : string) : list string :=
  match s with
  | EmptyString => [EmptyString]
  | String c rest =>
      if Ascii.eqb c sep then EmptyString :: split_sep rest
      else match split_sep rest with
           | h :: t => String c h :: t
           | [] => [String c EmptyString]
           end
  end.

(** The root is a directory; any other place is one when the file system
    says so. *)
Definition is_dir (f : gmap (list string) node) (loc : location) : bool :=
  match loc with
  | [] => true
  | _ => match f !! loc with
         | Some Dir => true
         | _ => false
         end
  end.

(** One name of a path, taken from the place [loc]: the empty name and
    [.] stay, [..] goes up (the root is its own parent), any other name
    goes down. *)
Definition step (loc : location) (c : string) : location :=
  if String.eqb c "" || String.eqb c "." then loc
  else if String.eqb c ".." then removelast loc
  else (loc ++ [c])%list.

Inductive walked : Type :=
| At (loc : location)
| Lost (cls : string).

(** Path resolution: every place a name is taken from must be a
    directory; the place reached need not exist. *)
Fixpoint walk (f : gmap (list string) node) (loc : location) (names : list string)
  : walked :=
  match names with
  | [] => At loc
  | c :: rest =>
      if is_dir f loc then walk f (step loc c) rest
      else Lost (match f !! loc with
                 | Some (File _) => "NotADirectoryError"
                 | _ => "FileNotFoundError"
                 end)
  end.

(** Directories that stay directories. *)
Definition dirs_kept (f f' : gmap (list string) node) : Prop :=
  forall l, is_dir f l = true -> is_dir f' l = true.

(** Nothing changes but for directories made where nothing was. *)
Definition adds_dirs (f f' : gmap (list string) node) : Prop :=
  forall l, f' !! l = f !! l \/ (f !! l = None /\ f' !! l = Some Dir).

(** The place a path names, whatever the file system holds. *)
Definition place (cwd : location) (path : string) : location :=
  fold_left step (split_sep path) (if startswith_sep path then [] else cwd).



Definition ends_dotdot (path : string) : bool :=
  match last (split_sep path) with
  | Some c => String.eqb c ".."
  | None => false
  end.

(** ** [urllib.parse.urlencode] *)

Definition unreserved (c : ascii) : bool :=
  let n := Z.of_N (N_of_ascii c) in
  (48 <=? n) && (n <=? 57) || (65 <=? n) && (n <=? 90) || (97 <=? n) && (n <=? 122)
  || Ascii.eqb c "_" || Ascii.eqb c "." || Ascii.eqb c "-" || Ascii.eqb c "~".

Definition HEX_char (n : Z) : ascii :=
  ascii_of_N (Z.to_N (if n <? 10 then 48 + n else 55 + n)).

Fixpoint quote_plus (s : string) : string :=
  match s with
  | EmptyString => EmptyString
  | String c rest =>
      let n := Z.of_N (N_of_ascii c) in
      (if unreserved c then String c EmptyString
       else if Ascii.eqb c " " then "+"
       else String "%" (String (HEX_char (n / 16)) (String (HEX_char (n mod 16)) EmptyString)))
      ++ quote_plus rest
  end.

Definition urlencode (query : list (string * string)) : string :=
  String.concat "&" (map (fun kv => quote_plus (fst kv) ++ "=" ++ quote_plus (snd kv)) query).

(** ** [hashlib.sha256] objects: [update] appends to what was absorbed,
    [digest] hashes it *)

Module hashlib.
Record sha256 : Type := mk { absorbed : bytes }.
Definition new : sha256 := mk [].
Definition update (h : sha256) (chunk : bytes) : sha256 := mk (absorbed h ++ chunk).
Definition digest (h : sha256) : bytes := SHA256.sha256 (absorbed h).
End hashlib.

(** ** Subscripts and [len] on parsed JSON *)

Definition getitem (v : json) (k : string) : result json :=
  match v with
  | JObj d =>
      match dict_get d k with
      | Some x => Ok x
      | None => Raise (KeyError k)
      end
  | _ => Raise (TypeError "indices must be integers")
  end.

(** [v.get(k)], with [None] for Python's [None] *)
Definition get (v : json) (k : string) : result (option json) :=
  match v with
  | JObj d =>
      match dict_get d k with
      | Some JNull | None => Ok None
      | Some x => Ok (Some x)
      end
  | _ => Raise (AttributeError "object has no attribute 'get'")
  end.

Definition len (v : json) : result Z :=
  match v with
  | JArr items => Ok (Z.of_nat (length items))
  | JObj d => Ok (Z.of_nat (length d))
  | JStr s => Ok (Z.of_nat (String.length s))
  | _ => Raise (TypeError "object has no len()")
  end.

Fixpoint last_char (s : string) : string :=
  match s with
  | EmptyString => EmptyString
  | String c EmptyString => s
  | String _ rest => last_char rest
  end.

(** [v[-1]] *)
Definition getitem_last (v : json) : result json :=
  match v with
  | JArr items =>
      match last items with
      | Some x => Ok x
      | None => Raise (LibraryError "IndexError" "list index out of range")
      end
  | JObj _ => Raise (KeyError "-1")
  | JStr EmptyString => Raise (LibraryError "IndexError" "string index out of range")
  | JStr s => Ok (JStr (last_char s))
  | _ => Raise (TypeError "object is not subscriptable")
  end.

(** [type(v).__name__]; a number is a [float] when its literal has a
    fraction or an exponent or is one of the non-finite names. *)
Fixpoint has_char (cs : string) (s : string) : bool :=
  match s with
  | EmptyString => false
  | String c rest =>
      existsb (Ascii.eqb c) (list_ascii_of_string cs) || has_char cs rest
  end.

Definition type_name (v : json) : string :=
  match v with
  | JNull => "NoneType"
  | JBool _ => "bool"
  | JNum literal => if has_char ".eEaI" literal then "float" else "int"
  | JStr _ => "str"
  | JArr _ => "list"
  | JObj _ => "dict"
  end.

Definition lift {A} (r : result A) : M A := fun w => (r, w).

(** ** The script *)

Section Script.

Variable env : Env.

(** The library exception of class [cls] about [arg]. *)
Definition library_error (cls arg : string) : exn :=
  LibraryError cls (strerror env cls arg).

(** *** Files *)

(** The place a path reaches: from the root when it starts with a slash,
    from the working directory otherwise; the empty path reaches nothing. *)
Definition locate (f : gmap (list string) node) (path : string) : walked :=
  if String.eqb path "" then Lost "FileNotFoundError"
  else walk f (if startswith_sep path then [] else getcwd env) (split_sep path).

(** What a path names, if anything: [os.path.exists] and [os.path.isdir]
    read it. *)
Definition stat (f : gmap (list string) node) (path : string) : option node :=
  match locate f path with
  | At loc => if is_dir f loc then Some Dir else f !! loc
  | Lost _ => None
  end.

(** [open(path, 'rb').read()] *)
Definition read_file (path : string) : M bytes :=
  fun w =>
    match locate (fs w) path with
    | Lost cls => (Raise (library_error cls path), w)
    | At loc =>
        if is_dir (fs w) loc then (Raise (library_error "IsADirectoryError" path), w)
        else match fs w !! loc with
             | Some (File data) => (Ok data, w)
             | _ => (Raise (library_error "FileNotFoundError" path), w)
             end
    end.

(** [open(path, 'wb').write(data)]: the directory the file goes in must
    exist, and the path must not name a directory. *)
Definition write_file (path : string) (data : bytes) : M unit :=
  fun w =>
    match locate (fs w) path with
    | Lost cls => (Raise (library_error cls path), w)
    | At loc =>
        if is_dir (fs w) loc || ends_dotdot path
        then (Raise (library_error "IsADirectoryError" path), w)
        else (Ok tt, set_fs (<[loc := File data]> (fs w)) w)
    end.

(** The walk of [os.makedirs(path, exist_ok=True)]: a name that is
    missing is made a directory, a name that is a file stops the walk;
    what was made before stays. *)
Fixpoint mkdirs (f : gmap (list string) node) (loc : location) (names : list string)
  : gmap (list string) node * option string :=
  match names with
  | [] => (f, None)
  | c :: rest =>
      if is_dir f loc then
        let loc' := step loc c in
        if is_dir f loc' then mkdirs f loc' rest
        else match f !! loc' with
             | Some (File _) =>
                 (f, Some (match rest with
                           | [] => "FileExistsError"
                           | _ => "NotADirectoryError"
                           end))
             | _ => mkdirs (<[loc' := Dir]> f) loc' rest
             end
      else (f, Some (match f !! loc with
                     | Some (File _) => "NotADirectoryError"
                     | _ => "FileNotFoundError"
                     end))
  end.

(** [os.makedirs(path, exist_ok=True)] *)
Definition makedirs (path : string) : M unit :=
  fun w =>
    if String.eqb path "" then (Raise (library_error "FileNotFoundError" path), w)
    else
      match mkdirs (fs w) (if startswith_sep path then [] else getcwd env)
                   (split_sep path) with
      | (f, None) => (Ok tt, set_fs f w)
      | (f, Some cls) => (Raise (library_error cls path), set_fs f w)
      end.

(** [urllib.request.urlopen(req)]: the request is recorded, then answered. *)
Definition http_get (url : string) : M http.response :=
  fun w =>
    let w' := logged url w in
    match urlopen env url with
    | Some r => (Ok r, w')
    | None => (Raise (library_error "URLError" url), w')
    end.

(** The URL [fetch_adoptium] builds before it opens it. *)
Definition api_url (version architecture : string) : string :=
  let query := [ ("architecture", architecture); ("image_type", "jdk");
                 ("os", "linux"); ("vendor", "eclipse") ] in
  let api_url := "https://api.adoptium.net/v3/assets/latest/" ++ version ++ "/hotspot" in
  api_url ++ "?" ++ urlencode query.

Definition fetch_adoptium (version architecture : string) : M json :=
  let api_url := api_url version architecture in
  let* r := http_get api_url in
  let* data :=
    match json_loads env (http.body r) with
    | Some data => ret data
    | None => raise (library_error "JSONDecodeError" api_url)
    end in
  let* n := lift (len data) in
  if n <=? 0 then raise CatalogEmpty
  else lift (getitem_last data).

Definition download_asset (url : json) (tempdir : string) : M string :=
  match url with
  | JStr url =>
      let* response := http_get url in
      match http.get_filename response with
      | None => raise (FilenameMissing url)
      | Some filename =>
          let asset_name := os_path.join tempdir filename in
          print ("downloading asset: " ++ url ++ " to " ++ asset_name) >>
          write_file asset_name (http.body response) >>
          ret asset_name
      end
  | _ => raise (ValueError "unknown url type")
  end.

(** The [while chunk := asset.read(8192)] loop over what is left of the
    file; [None] when the fuel runs out before the file does. *)
Fixpoint read_chunks (fuel size : nat) (rest : bytes) (h : hashlib.sha256)
  : option hashlib.sha256 :=
  match fuel with
  | O => None
  | S k =>
      match firstn size rest with
      | [] => Some h
      | chunk => read_chunks k size (skipn size rest) (hashlib.update h chunk)
      end
  end.

Definition chunk_size : nat := Z.to_nat 8192.

Definition read_into (content : bytes) (h : hashlib.sha256) : hashlib.sha256 :=
  match read_chunks (S (length content)) chunk_size content h with
  | Some h' => h'
  | None => h
  end.

Definition verify_asset (asset : pydict) : M bool :=
  let* c := lift (getitem (JObj asset) "checksum") in
  let* checksum :=
    match c with
    | JStr s =>
        match unhexlify s with
        | Some b => ret b
        | None => raise (library_error "binascii.Error" s)
        end
    | _ => raise (TypeError "decoding with 'hex' codec failed")
    end in
  let h := hashlib.new in
  let* p := lift (getitem (JObj asset) "package") in
  let* content :=
    match p with
    | JStr path => read_file path
    | _ => raise (TypeError "expected str, bytes or os.PathLike object")
    end in
  let h := read_into content h in
  ret (bool_decide (checksum = hashlib.digest h)).

(** The [if]/[elif]/[else] on the file name: the [tarfile.open] mode, or
    [None] where the script raises. *)
Definition archive_mode (asset_package : string) : option string :=
  if endswith asset_package ".tar.gz" || endswith asset_package ".tgz" then Some "r:gz"
  else if endswith asset_package "tar.bz2" || endswith asset_package ".tbz" then Some "r:bz2"
  else None.

(** [TarFile.makedir]: [os.mkdir], a directory that is already there
    being accepted; a file that is there stays, and is an error unless the
    library passes over it. *)
Definition mkdir_member (targetpath : string) : M unit :=
  fun w =>
    match locate (fs w) targetpath with
    | Lost cls => (Raise (library_error cls targetpath), w)
    | At loc =>
        if is_dir (fs w) loc then (Ok tt, w)
        else match fs w !! loc with
             | Some (File _) =>
                 if makedir_tolerant env then (Ok tt, w)
                 else (Raise (library_error "FileExistsError" targetpath), w)
             | _ => (Ok tt, set_fs (<[loc := Dir]> (fs w)) w)
             end
    end.

(** [os.makedirs(upperdirs)] when the target's directory is not there. *)
Definition make_upperdirs (upperdirs : string) : M unit :=
  fun w =>
    match upperdirs, stat (fs w) upperdirs with
    | EmptyString, _ | _, Some _ => (Ok tt, w)
    | _, None => makedirs upperdirs w
    end.

(** What [TarFile.makedir] leaves at the place of a directory member: a
    directory, or, where the library passes over it, the file that had the
    place. *)
Definition directory_made (f : gmap (list string) node) (loc : location) : Prop :=
  is_dir f loc = true
  \/ (makedir_tolerant env = true /\ exists d, f !! loc = Some (File d)).

(** The extraction of one member, with no filter: the target is [path]
    joined with the member's name, trailing slashes off; the directories
    above it are made when the target's directory does not exist; then a
    directory member is made, a file member written. *)
Definition extract_member (x : tarfile.TarInfo) (path : string) : M unit :=
  let targetpath := rstrip_sep (os_path.join path (tarfile.name x)) in
  let upperdirs := os_path.dirname targetpath in
  make_upperdirs upperdirs >>
  if tarfile.isdir x then mkdir_member targetpath
  else write_file targetpath (tarfile.data x).

(** The place the member [x] is extracted to. *)
Definition member_place (path : string) (x : tarfile.TarInfo) : location :=
  place (getcwd env) (rstrip_sep (os_path.join path (tarfile.name x))).

(** What an extraction of members of [archive] into [path] may have done
    to the files: each place is as before, or a directory made where
    nothing was, or, if it was no directory, holds a file member that was
    extracted to it. *)
Definition extraction_of (archive : list tarfile.TarInfo) (path : string)
    (f f' : gmap (list string) node) : Prop :=
  forall loc,
    f' !! loc = f !! loc
    \/ (f !! loc = None /\ f' !! loc = Some Dir)
    \/ (f !! loc <> Some Dir
        /\ exists y, In y archive /\ tarfile.isdir y = false
                     /\ member_place path y = loc
                     /\ f' !! loc = Some (File (tarfile.data y))).

(** [archive.extractall(path)]: the members in archive order; the first
    error ends the extraction, what was extracted before it staying. *)
Fixpoint extractall (archive : list tarfile.TarInfo) (path : string) : M unit :=
  match archive with
  | [] => ret tt
  | x :: rest => extract_member x path >> extractall rest path
  end.

Definition extract_asset (asset_package : string) : M string :=
  match archive_mode asset_package with
  | None => raise (UnsupportedArchiveFormat asset_package)
  | Some mode =>
      let* content := read_file asset_package in
      let* archive :=
        match tarfile_open env mode content with
        | Some members => ret members
        | None => raise (LibraryError "ReadError" (tarfile_error env mode content))
        end in
      let asset_dir := os_path.dirname asset_package in
      let root_dirname := List.find tarfile.isdir archive in
      extractall archive asset_dir >>
      match root_dirname with
      | Some x => ret (os_path.join asset_dir (tarfile.name x))
      | None => raise (AttributeError "'NoneType' object has no attribute 'name'")
      end
  end.

Record facts : Type := mkFacts {
  platform : string;
  machine : string;
  architecture : option string }.

Definition architecture_map : gmap string string :=
  list_to_map [("AMD64", "x64"); ("x86_64", "x64"); ("i386", "x32"); ("x86", "x86")].

Definition system_facts : facts :=
  mkFacts (platform_system env) (platform_machine env)
          (architecture_map !! platform_machine env).

Definition java_versions : list string := ["11"; "16"].

(** [with tempfile.TemporaryDirectory() as tmpdirname]: the directory is
    created, and removed with its contents however the body ends.
    [tempfile] hands out a directory it can use: afterwards the place of
    [tmpdirname] and the places above it are directories. *)
Definition created (tmpdirname : string) (w : World) : World :=
  let loc := place (getcwd env) tmpdirname in
  mkWorld (fold_left (fun f k => <[firstn k loc := Dir]> f) (seq 1 (length loc)) (fs w))
          (requests w) (stdout w) (S (tmpdirs w)).

(** [shutil.rmtree]: the place of [tmpdirname] and all below it go. *)
Definition removed (tmpdirname : string) (w : World) : World :=
  set_fs (filter (fun kv : list string * node =>
                    ~ place (getcwd env) tmpdirname `prefix_of` kv.1) (fs w)) w.

Definition with_TemporaryDirectory {A} (body : string -> M A) : M A :=
  fun w =>
    let tmpdirname := mkdtemp env (tmpdirs w) in
    let (r, w') := body tmpdirname (created tmpdirname w) in
    (r, removed tmpdirname w').

(** [os.path.samefile], false when either path names nothing *)
Definition samefile (f : gmap (list string) node) (a b : string) : bool :=
  match locate f a, locate f b, stat f a, stat f b with
  | At la, At lb, Some _, Some _ => bool_decide (la = lb)
  | _, _, _, _ => false
  end.

(** [shutil.copy(src, dst)] *)
Definition shutil_copy (src dst : string) : M unit :=
  fun w =>
    let dst := match stat (fs w) dst with
               | Some Dir => os_path.join dst (basename src)
               | _ => dst
               end in
    if samefile (fs w) src dst then (Raise (library_error "SameFileError" src), w)
    else (let* content := read_file src in write_file dst content) w.

(** The body of the [with] block of [get_jdk], for one version. *)
Definition fetch_verified (asset_dir ver : string) (java_package : json)
    (tmpdirname : string) : M pydict :=
  print ("created temporary directory [java " ++ ver ++ "]: " ++ tmpdirname) >>
  let asset : pydict := [] in
  let* name := lift (getitem java_package "name") in
  let asset := dict_set asset "name" name in
  let* checksum := lift (getitem java_package "checksum") in
  let asset := dict_set asset "checksum" checksum in
  let* signature_link := lift (getitem java_package "signature_link") in
  let* signature := download_asset signature_link tmpdirname in
  let asset := dict_set asset "signature" (JStr signature) in
  let* link := lift (getitem java_package "link") in
  let* package := download_asset link tmpdirname in
  let asset := dict_set asset "package" (JStr package) in
  let* verified := verify_asset asset in
  if negb verified then raise (ChecksumMismatch ver)
  else
    let* path :=
      match name with
      | JStr name => ret (os_path.join asset_dir name)
      | _ => raise (TypeError "join() argument must be str, bytes, or os.PathLike object")
      end in
    let asset := dict_set asset "path" (JStr path) in
    shutil_copy package path >>
    ret asset.

(** The body of the [for ver in java_versions] loop: [None] after
    [continue], the asset to append otherwise. *)
Definition process_version (architecture asset_dir ver : string) : M (option pydict) :=
  let* java_asset := fetch_adoptium ver architecture in
  let* binary := lift (getitem java_asset "binary") in
  let* java_package := lift (getitem binary "package") in
  let* checksum := lift (get java_package "checksum") in
  match checksum with
  | None => print "skipping, no checksum provided" >> ret None
  | Some _ =>
      let* asset := with_TemporaryDirectory (fetch_verified asset_dir ver java_package) in
      ret (Some asset)
  end.

Fixpoint for_versions (architecture asset_dir : string) (versions : list string)
    (assets : list pydict) : M (list pydict) :=
  match versions with
  | [] => ret assets
  | ver :: rest =>
      let* r := process_version architecture asset_dir ver in
      for_versions architecture asset_dir rest
        (match r with
         | Some asset => assets ++ [asset]
         | None => assets
         end)
  end.

Definition get_jdk (asset_dir : string) : M (list pydict) :=
  let sys_facts := system_facts in
  match architecture sys_facts with
  | None => raise UnsupportedArchitecture
  | Some arch => for_versions arch asset_dir java_versions []
  end.

(** The body of the [for asset in assets] loop of the main block. *)
Definition extract_one (asset : pydict) : M (option pydict) :=
  try_except
    (let* p := lift (getitem (JObj asset) "path") in
     let* d :=
       match p with
       | JStr asset_package => extract_asset asset_package
       | v => raise (AttributeError ("'" ++ type_name v
                                     ++ "' object has no attribute 'endswith'"))
       end in
     ret (Some (dict_set asset "path" (JStr d))))
    (fun ex => print (str_exn ex) >> ret None).

Fixpoint extract_all (assets extracted_assets : list pydict) : M (list pydict) :=
  match assets with
  | [] => ret extracted_assets
  | asset :: rest =>
      let* r := extract_one asset in
      extract_all rest
        (match r with
         | Some asset => extracted_assets ++ [asset]
         | None => extracted_assets
         end)
  end.

(** A path [download_asset] returns: the temporary directory joined with
    the file name the server sent. *)
Definition downloaded (tmpdirname p : string) : Prop :=
  exists (url : string) (r : http.response) (filename : string),
    urlopen env url = Some r /\ http.get_filename r = Some filename
    /\ p = os_path.join tmpdirname filename.

(** The object [get_jdk] builds for a version stored under [asset_dir]. *)
Definition fetched_object (asset_dir : string) (d : pydict) : Prop :=
  exists (name : string) (checksum : json) (n : nat) (signature package : string),
    d = [("name", JStr name); ("checksum", checksum); ("signature", JStr signature);
         ("package", JStr package); ("path", JStr (os_path.join asset_dir name))]
    /\ downloaded (mkdtemp env n) signature /\ downloaded (mkdtemp env n) package.

(** The assets the loop kept, each under the path it was extracted to. *)
Definition repathed (kept : list (pydict * string)) : list pydict :=
  map (fun ad => dict_set (fst ad) "path" (JStr (snd ad))) kept.

(** What [extract_asset] returned for the path of an asset the loop kept. *)
Definition kept_path (ad : pydict * string) : Prop :=
  exists (p : string) (w w' : World),
    dict_get (fst ad) "path" = Some (JStr p)
    /\ extract_asset p w = (Ok (snd ad), w').

(** An object of the list that is dumped. *)
Definition emitted_object (asset_dir : string) (d : pydict) : Prop :=
  exists (name : string) (checksum : json) (n : nat) (signature package path : string)
         (w w' : World),
    d = [("name", JStr name); ("checksum", checksum); ("signature", JStr signature);
         ("package", JStr package); ("path", JStr path)]
    /\ downloaded (mkdtemp env n) signature /\ downloaded (mkdtemp env n) package
    /\ extract_asset (os_path.join asset_dir name) w = (Ok path, w').

(** The dump of the list: to the standard output without [-o], to the file
    named by [-o] otherwise.  When that file cannot be opened the handler
    prints the error and the [finally] clause fails on the unbound name. *)
Definition dump (o : option string) (extracted_assets : list pydict) : M unit :=
  match o with
  | None | Some EmptyString => print (json_dumps env extracted_assets)
  | Some path =>
      try_except
        (write_file path (bytes_of_string (json_dumps env extracted_assets)))
        (fun ex => print (str_exn ex) >>
                   raise (NameError "name 'outputFile' is not defined"))
  end.

(** Everything before the dump: the list the script is about to write. *)
Definition pipeline (directory : string) : M (list pydict) :=
  let dir_path := abspath env directory in
  makedirs dir_path >>
  let* assets := get_jdk dir_path in
  extract_all assets [].

Definition main (directory : string) (o : option string) : M unit :=
  let* extracted_assets := pipeline directory in
  dump o extracted_assets.

End Script.

(** ** A test bench

    A host, a catalog and a few archives to run the script on.  The bytes
    of an archive stand for the archive; [tarfile_open] maps them to the
    members they hold. *)

Module Bench.

(** One element of the catalog's answer. *)
Definition entry (fields : pydict) : json :=
  JObj [("binary", JObj [("image_type", JStr "jdk"); ("package", JObj fields)]);
        ("release_name", JStr "jdk")].

Definition jdk11 : bytes := bytes_of_string "abc".
Definition jdk16 : bytes := bytes_of_string "jdk-image".
Definition flat : bytes := bytes_of_string "flat".
Definition stray : bytes := bytes_of_string "stray".

Definition sha_jdk11 : string :=
  "ba7816bf8f01cfea414140de5dae2223b00361a396177a9cb410ff61f20015ad".
Definition sha_jdk16 : string :=
  "abb78d07b074389feef7877697754120b4fb7ab4efac1884cc51d3ecb1d223b2".

Definition package11 : pydict :=
  [("checksum", JStr sha_jdk11);
   ("link", JStr "https://example.org/jdk11.tar.gz");
   ("name", JStr "jdk11.tar.gz");
   ("signature_link", JStr "https://example.org/jdk11.tar.gz.sig");
   ("size", JNum "3")].

Definition package16 : pydict :=
  [("checksum", JStr sha_jdk16);
   ("link", JStr "https://example.org/jdk16.tgz");
   ("name", JStr "jdk16.tgz");
   ("signature_link", JStr "https://example.org/jdk16.tgz.sig");
   ("size", JNum "9")].

(** The same package under a name that is no archive name. *)
Definition package16_zip : pydict :=
  [("checksum", JStr sha_jdk16);
   ("link", JStr "https://example.org/jdk16.tgz");
   ("name", JStr "jdk16.zip");
   ("signature_link", JStr "https://example.org/jdk16.tgz.sig")].

(** The first package under the checksum of the second. *)
Definition package11_bad : pydict :=
  [("checksum", JStr sha_jdk16);
   ("link", JStr "https://example.org/jdk11.tar.gz");
   ("name", JStr "jdk11.tar.gz");
   ("signature_link", JStr "https://example.org/jdk11.tar.gz.sig")].

(** An archive that holds no directory. *)
Definition package_flat : pydict :=
  [("checksum", JStr "5dc27af287fa554aa10fec9de8d724a7964572f1ffd24c2b00e1a3a860ce7679");
   ("link", JStr "https://example.org/flat.tgz");
   ("name", JStr "flat.tgz");
   ("signature_link", JStr "https://example.org/flat.tgz.sig")].

Definition without (key : string) (d : pydict) : pydict :=
  List.filter (fun kv => negb (String.eqb (fst kv) key)) d.

Definition older : json := entry [("name", JStr "jdk-older.tar.gz")].

Definition downloads : list (string * (string * bytes)) :=
  [("https://example.org/jdk11.tar.gz", ("jdk11.tar.gz", jdk11));
   ("https://example.org/jdk11.tar.gz.sig", ("jdk11.tar.gz.sig", bytes_of_string "sig11"));
   ("https://example.org/jdk16.tgz", ("jdk16.tgz", jdk16));
   ("https://example.org/jdk16.tgz.sig", ("jdk16.tgz.sig", bytes_of_string "sig16"));
   ("https://example.org/flat.tgz", ("flat.tgz", flat));
   ("https://example.org/flat.tgz.sig", ("flat.tgz.sig", bytes_of_string "sigflat"))].

Fixpoint assoc {A} (k : string) (l : list (string * A)) : option A :=
  match l with
  | [] => None
  | (k', v) :: rest => if String.eqb k' k then Some v else assoc k rest
  end.

Definition urlopen (url : string) : option http.response :=
  if String.eqb url (api_url "11" "x64") then Some (http.mkResponse None (bytes_of_string "11"))
  else if String.eqb url (api_url "16" "x64") then Some (http.mkResponse None (bytes_of_string "16"))
  else match assoc url downloads with
       | Some (filename, body) => Some (http.mkResponse (Some filename) body)
       | None => None
       end.

Definition json_loads (catalog : string -> option json) (body : bytes) : option json :=
  if bool_decide (body = bytes_of_string "11") then catalog "11"
  else if bool_decide (body = bytes_of_string "16") then catalog "16"
  else None.

Definition members (root : string) : list tarfile.TarInfo :=
  [tarfile.mkTarInfo (root ++ "/release") false (bytes_of_string "JAVA_VERSION");
   tarfile.mkTarInfo root true [];
   tarfile.mkTarInfo (root ++ "/bin") true [];
   tarfile.mkTarInfo (root ++ "/bin/java") false (bytes_of_string "ELF")].

Definition flat_members : list tarfile.TarInfo :=
  [tarfile.mkTarInfo "README" false (bytes_of_string "read me");
   tarfile.mkTarInfo "LICENSE" false (bytes_of_string "GPLv2+CE")].

(** An archive with a root directory and a member of absolute name. *)
Definition stray_members : list tarfile.TarInfo :=
  [tarfile.mkTarInfo "jdk-17" true [];
   tarfile.mkTarInfo "/etc/motd" false (bytes_of_string "hello")].

Definition tarfile_open (mode : string) (content : bytes) : option (list tarfile.TarInfo) :=
  if String.eqb mode "r:gz" then
    if bool_decide (content = jdk11) then Some (members "jdk-11")
    else if bool_decide (content = jdk16) then Some (members "jdk-16")
    else if bool_decide (content = flat) then Some flat_members
    else if bool_decide (content = stray) then Some stray_members
    else None
  else if String.eqb mode "r:bz2" then
    if bool_decide (content = jdk11) then Some (members "jdk-11-bz2") else None
  else None.

Definition mkdtemp (n : nat) : string :=
  "/tmp/tmp" ++ String (ascii_of_nat (48 + n)) EmptyString.

Definition show (v : json) : string :=
  match v with
  | JStr s => s
  | JNum s => s
  | _ => "?"
  end.

(** A stand-in for [json.dumps]: the fields of each object, in order. *)
Definition render (xs : list pydict) : string :=
  String.concat "; "
    (map (fun d : pydict =>
            String.concat ", " (map (fun kv => fst kv ++ "=" ++ show (snd kv)) d)) xs).

(** Messages in the shape [OSError] gives them. *)
Definition strerror (cls arg : string) : string := cls ++ ": '" ++ arg ++ "'".

Definition tarfile_error (mode : string) (content : bytes) : string :=
  if String.eqb mode "r:gz" then "not a gzip file" else "not a bzip2 file".

Definition env (machine : string) (catalog : string -> option json) : Env :=
  mkEnv "Linux" machine urlopen (json_loads catalog) tarfile_open mkdtemp
        (fun p => p) render ["work"] strerror tarfile_error true.

Definition catalog_of (p11 p16 : pydict) (ver : string) : option json :=
  if String.eqb ver "11" then Some (JArr [older; entry p11])
  else if String.eqb ver "16" then Some (JArr [entry p16])
  else None.

(** A host with its working directory and the directory of the temporary
    files, both empty. *)
Definition w0 : World := mkWorld (<[ ["tmp"] := Dir ]> {[ ["work"] := Dir ]}) [] [] 0.

(** A host whose directory [/opt/java] holds the given files. *)
Definition opt_java (files : list (string * node)) : World :=
  mkWorld (list_to_map ((["work"], Dir) :: (["opt"], Dir) :: (["opt"; "java"], Dir)
                        :: map (fun nf => (["opt"; "java"; fst nf], snd nf)) files))
          [] [] 0.

End Bench.


(** * Properties *)

(** ** SHA-256 and hexadecimal on known values *)

Example sha256_empty :
  hexlify (SHA256.sha256 []) =
  "e3b0c44298fc1c149afbf4c8996fb92427ae41e4649b934ca495991b7852b855".
Proof. vm_compute. reflexivity. Qed.

Example sha256_abc :
  hexlify (SHA256.sha256 (bytes_of_string "abc")) =
  "ba7816bf8f01cfea414140de5dae2223b00361a396177a9cb410ff61f20015ad".
Proof. vm_compute. reflexivity. Qed.

Example sha256_two_blocks :
  hexlify (SHA256.sha256 (repeat "a"%byte 119)) =
  "31eba51c313a5c08226adf18d4a359cfdfd8d2e816b13f4af952f7ea6584dcfb".
Proof. vm_compute. reflexivity. Qed.

Example sha256_pad_boundary :
  hexlify (SHA256.sha256 (repeat "a"%byte 56)) =
  "b35439a4ac6f0948b6d6f9e3c6af0f5f590ce20f1bde7090ef7970686ec6738a".
Proof. vm_compute. reflexivity. Qed.

Example unhexlify_either_case :
  unhexlify "0aFf" = Some [x0a; xff] /\ unhexlify "abc" = None /\ unhexlify "zz" = None.
Proof. repeat split. Qed.

Example os_path_examples :
  os_path.dirname "/opt/java/jdk11.tar.gz" = "/opt/java"
  /\ os_path.dirname "jdk11.tar.gz" = ""
  /\ os_path.dirname "/jdk11.tar.gz" = "/"
  /\ os_path.join "/opt/java" "jdk-11" = "/opt/java/jdk-11"
  /\ os_path.join "/opt/java/" "jdk-11" = "/opt/java/jdk-11"
  /\ os_path.join "/opt/java" "/etc/passwd" = "/etc/passwd"
  /\ os_path.join "" "jdk-11" = "jdk-11".
Proof. repeat split. Qed.

Example api_url_example :
  api_url "11" "x64"
  = "https://api.adoptium.net/v3/assets/latest/11/hotspot?architecture=x64&image_type=jdk&os=linux&vendor=eclipse".
Proof. reflexivity. Qed.

(** ** The integrity verifier *)

Lemma read_chunks_all (size : nat) :
  (0 < size)%nat ->
  forall fuel rest h,
    (length rest < fuel)%nat ->
    read_chunks fuel size rest h = Some (hashlib.mk (hashlib.absorbed h ++ rest)).
Proof.
  intros Hsize fuel. induction fuel as [|k IH]; intros rest h Hfuel; [lia|].
  simpl. destruct rest as [|b rest].
  - rewrite firstn_nil, app_nil_r. destruct h; reflexivity.
  - destruct size as [|n]; [lia|].
    change (firstn (S n) (b :: rest)) with (b :: firstn n rest).
    cbv beta iota. rewrite IH.
    + simpl. rewrite <- app_assoc. simpl.
      rewrite (firstn_skipn n rest). reflexivity.
    + simpl in *. pose proof (length_skipn n rest). lia.
Qed.

Lemma read_into_all content h :
  read_into content h = hashlib.mk (hashlib.absorbed h ++ content).
Proof.
  unfold read_into. rewrite read_chunks_all; [reflexivity | | lia].
  unfold chunk_size. lia.
Qed.

Lemma digest_read_into content :
  hashlib.digest (read_into content hashlib.new) = SHA256.sha256 content.
Proof. rewrite read_into_all. reflexivity. Qed.

(** ** Files *)

Lemma read_file_world env path w : snd (read_file env path w) = w.
Proof.
  unfold read_file. destruct (locate env (fs w) path) as [loc|cls]; [|reflexivity].
  destruct (is_dir (fs w) loc); [reflexivity|].
  destruct (fs w !! loc) as [[|data]|]; reflexivity.
Qed.

Lemma read_file_stat env path w content :
  read_file env path w = (Ok content, w) <-> stat env (fs w) path = Some (File content).
Proof.
  unfold read_file, stat. destruct (locate env (fs w) path) as [loc|cls].
  - destruct (is_dir (fs w) loc).
    + split; discriminate.
    + destruct (fs w !! loc) as [[|data]|]; split; intros H; try discriminate;
        injection H as <-; reflexivity.
  - split; discriminate.
Qed.

Lemma read_file_Ok env path w content w' :
  read_file env path w = (Ok content, w') ->
  w' = w /\ stat env (fs w) path = Some (File content).
Proof.
  intros H. pose proof (read_file_world env path w) as Hw. rewrite H in Hw.
  simpl in Hw. subst w'. split; [reflexivity|]. apply read_file_stat, H.
Qed.

Lemma verify_asset_run env asset w path hex declared content :
  dict_get asset "checksum" = Some (JStr hex) ->
  dict_get asset "package" = Some (JStr path) ->
  unhexlify hex = Some declared ->
  stat env (fs w) path = Some (File content) ->
  verify_asset env asset w = (Ok (bool_decide (declared = SHA256.sha256 content)), w).
Proof.
  intros Hc Hp Hhex Hfile. apply read_file_stat in Hfile.
  unfold verify_asset, bind, lift, getitem, ret.
  rewrite Hc, Hhex, Hp, Hfile, digest_read_into. reflexivity.
Qed.

(** ** Sequencing *)

Lemma bind_Ok {A B} (m : M A) (f : A -> M B) w a w1 :
  m w = (Ok a, w1) -> bind m f w = f a w1.
Proof. intros H. unfold bind. rewrite H. reflexivity. Qed.

Lemma bind_Raise {A B} (m : M A) (f : A -> M B) w e w1 :
  m w = (Raise e, w1) -> bind m f w = (Raise e, w1).
Proof. intros H. unfold bind. rewrite H. reflexivity. Qed.

Lemma bind_Ok_inv {A B} (m : M A) (f : A -> M B) w b w' :
  bind m f w = (Ok b, w') ->
  exists a w1, m w = (Ok a, w1) /\ f a w1 = (Ok b, w').
Proof.
  unfold bind. destruct (m w) as [[a|e] w1]; intros H.
  - exists a, w1. split; [reflexivity | exact H].
  - discriminate.
Qed.

(** ** The catalog client *)

Lemma fetch_adoptium_run env version architecture w r data :
  urlopen env (api_url version architecture) = Some r ->
  json_loads env (http.body r) = Some data ->
  fetch_adoptium env version architecture w =
  match len data with
  | Ok n => if n <=? 0 then (Raise CatalogEmpty, logged (api_url version architecture) w)
            else (getitem_last data, logged (api_url version architecture) w)
  | Raise e => (Raise e, logged (api_url version architecture) w)
  end.
Proof.
  intros Hopen Hloads.
  unfold fetch_adoptium, bind, http_get, lift, ret, raise.
  rewrite Hopen, Hloads.
  destruct (len data) as [n|e]; [|reflexivity].
  destruct (n <=? 0); reflexivity.
Qed.

(** C2. When the catalog answers with an array, [fetch_adoptium] fails
    with CatalogEmpty on the empty array, and on an array of N > 0 elements
    returns the element of index N-1; whenever that element differs from
    the element of index 0, the result is not the element of index 0. *)
Theorem fetch_adoptium_selects_last :
  forall (env : Env) (version architecture : string) (w : World)
         (r : http.response) (items : list json),
    urlopen env (api_url version architecture) = Some r ->
    json_loads env (http.body r) = Some (JArr items) ->
    let w' := logged (api_url version architecture) w in
    (length items = 0%nat ->
       fetch_adoptium env version architecture w = (Raise CatalogEmpty, w'))
    /\ (forall N : nat,
          length items = N -> (0 < N)%nat ->
          exists x : json,
            items !! (N - 1)%nat = Some x
            /\ fetch_adoptium env version architecture w = (Ok x, w')
            /\ (forall x0 : json,
                  items !! 0%nat = Some x0 -> x0 <> x ->
                  fetch_adoptium env version architecture w <> (Ok x0, w'))).
Proof.
  intros env version architecture w r items Hopen Hloads w'.
  rewrite (fetch_adoptium_run env version architecture w r (JArr items) Hopen Hloads).
  cbn [len]. split.
  - intros Hlen. rewrite Hlen. reflexivity.
  - intros N Hlen HN.
    assert (Hlt : (N - 1 < length items)%nat) by lia.
    destruct (lookup_lt_is_Some_2 items (N - 1)%nat Hlt) as [x Hx].
    exists x. split; [exact Hx|].
    assert (Hpos : (Z.of_nat (length items) <=? 0) = false) by (apply Z.leb_gt; lia).
    rewrite Hpos. cbn [getitem_last].
    rewrite last_lookup, Hlen.
    replace (Nat.pred N) with (N - 1)%nat by lia.
    rewrite Hx. split; [reflexivity|].
    intros x0 _ Hne Heq. apply Hne. congruence.
Qed.

Lemma fetch_adoptium_selects_last_witness :
  let env := Bench.env "x86_64" (Bench.catalog_of Bench.package11 Bench.package16) in
  fetch_adoptium env "11" "x64" Bench.w0
  = (Ok (Bench.entry Bench.package11), logged (api_url "11" "x64") Bench.w0)
  /\ fetch_adoptium env "11" "x64" Bench.w0
     <> (Ok Bench.older, logged (api_url "11" "x64") Bench.w0).
Proof.
  intros env.
  destruct (fetch_adoptium_selects_last env "11" "x64" Bench.w0
              (http.mkResponse None (bytes_of_string "11"))
              [Bench.older; Bench.entry Bench.package11])
    as (_ & Hlast).
  - reflexivity.
  - reflexivity.
  - destruct (Hlast 2%nat) as (x & Hx & Hrun & Hfirst).
    + reflexivity.
    + lia.
    + injection Hx as <-. split; [exact Hrun|].
      apply Hfirst; [reflexivity | discriminate].
Defined.


(** ** Places *)

Lemma walk_place f loc names l :
  walk f loc names = At l -> l = fold_left step names loc.
Proof.
  revert loc. induction names as [|c names IH]; intros loc H; simpl in *.
  - congruence.
  - destruct (is_dir f loc); [apply IH, H | discriminate].
Qed.

Lemma locate_place env f path l :
  locate env f path = At l -> l = place (getcwd env) path /\ path <> "".
Proof.
  unfold locate, place. destruct (String.eqb_spec path ""); [discriminate|].
  intros H. split; [apply (walk_place _ _ _ _ H) | assumption].
Qed.

Lemma walk_dirs_kept f f' loc names l :
  dirs_kept f f' -> walk f loc names = At l -> walk f' loc names = At l.
Proof.
  intros Hk. revert loc. induction names as [|c names IH]; intros loc H; simpl in *.
  - exact H.
  - destruct (is_dir f loc) eqn:E; [|discriminate].
    rewrite (Hk _ E). apply IH, H.
Qed.

Lemma locate_dirs_kept env f f' path l :
  dirs_kept f f' -> locate env f path = At l -> locate env f' path = At l.
Proof.
  unfold locate. intros Hk. destruct (String.eqb path ""); [discriminate|].
  apply walk_dirs_kept, Hk.
Qed.

Lemma is_dir_lookup f l : is_dir f l = false -> f !! l <> Some Dir.
Proof.
  unfold is_dir. destruct l; [discriminate|].
  destruct (f !! (s :: l)) as [[|d]|]; congruence.
Qed.

Lemma is_dir_insert_file f loc d l :
  is_dir f loc = false -> is_dir (<[loc := File d]> f) l = is_dir f l.
Proof.
  intros Hloc. unfold is_dir. destruct l as [|c l]; [reflexivity|].
  destruct (decide (loc = c :: l)) as [->|Hne].
  - rewrite lookup_insert_eq. apply is_dir_lookup in Hloc.
    destruct (f !! (c :: l)) as [[|d']|]; congruence.
  - rewrite lookup_insert_ne by exact Hne. reflexivity.
Qed.

Lemma is_dir_insert_dir f loc l :
  is_dir f l = true -> is_dir (<[loc := Dir]> f) l = true.
Proof.
  unfold is_dir. destruct l as [|c l]; [reflexivity|].
  destruct (decide (loc = c :: l)) as [->|Hne].
  - rewrite lookup_insert_eq. reflexivity.
  - rewrite lookup_insert_ne by exact Hne. trivial.
Qed.

Lemma adds_dirs_refl f : adds_dirs f f.
Proof. intros l. left. reflexivity. Qed.

Lemma adds_dirs_trans f g h : adds_dirs f g -> adds_dirs g h -> adds_dirs f h.
Proof.
  intros H1 H2 l. destruct (H1 l) as [E1|[E1 E1']], (H2 l) as [E2|[E2 E2']].
  - left. congruence.
  - right. split; congruence.
  - right. split; congruence.
  - congruence.
Qed.

Lemma adds_dirs_kept f f' : adds_dirs f f' -> dirs_kept f f'.
Proof.
  intros H l. unfold is_dir. destruct l as [|c l]; [trivial|].
  destruct (H (c :: l)) as [->|[-> ->]]; [trivial | discriminate].
Qed.

Lemma mkdirs_adds_dirs names : forall f loc,
  adds_dirs f (fst (mkdirs f loc names)).
Proof.
  induction names as [|c names IH]; intros f loc; simpl.
  - apply adds_dirs_refl.
  - destruct (is_dir f loc); [|apply adds_dirs_refl].
    destruct (is_dir f (step loc c)) eqn:E; [apply IH|].
    destruct (f !! step loc c) as [[|d]|] eqn:El.
    + exfalso. exact (is_dir_lookup _ _ E El).
    + apply adds_dirs_refl.
    + eapply adds_dirs_trans; [|apply IH].
      intros l. destruct (decide (step loc c = l)) as [<-|Hne].
      * right. split; [exact El | apply lookup_insert_eq].
      * left. apply lookup_insert_ne, Hne.
Qed.

Lemma same_channels_refl w : same_channels w w.
Proof. repeat split. Qed.

Lemma same_channels_trans w1 w2 w3 :
  same_channels w1 w2 -> same_channels w2 w3 -> same_channels w1 w3.
Proof. unfold same_channels. intuition congruence. Qed.

Lemma same_channels_set_fs f w : same_channels w (set_fs f w).
Proof. repeat split. Qed.

Lemma read_file_inv env path w r w' :
  read_file env path w = (r, w') ->
  w' = w /\ match r with
            | Ok content => stat env (fs w) path = Some (File content)
            | Raise e => exists cls, e = library_error env cls path
            end.
Proof.
  unfold read_file, stat. destruct (locate env (fs w) path) as [loc|cls].
  - destruct (is_dir (fs w) loc).
    + intros [= <- <-]. eauto.
    + destruct (fs w !! loc) as [[|d]|]; intros [= <- <-]; eauto.
  - intros [= <- <-]. eauto.
Qed.

Lemma write_file_inv env path data w r w' :
  write_file env path data w = (r, w') ->
  match r with
  | Ok _ => exists loc, locate env (fs w) path = At loc
                        /\ is_dir (fs w) loc = false
                        /\ w' = set_fs (<[loc := File data]> (fs w)) w
  | Raise e => w' = w /\ exists cls, e = library_error env cls path
  end.
Proof.
  unfold write_file. destruct (locate env (fs w) path) as [loc|cls].
  - destruct (is_dir (fs w) loc) eqn:E; simpl.
    + intros [= <- <-]. eauto.
    + destruct (ends_dotdot path); intros [= <- <-]; eauto.
  - intros [= <- <-]. eauto.
Qed.

Lemma mkdir_member_inv env path w r w' :
  mkdir_member env path w = (r, w') ->
  match r with
  | Ok _ => exists loc, locate env (fs w) path = At loc
                        /\ (is_dir (fs w') loc = true
                            \/ (makedir_tolerant env = true
                                /\ exists d, fs w' !! loc = Some (File d)))
                        /\ adds_dirs (fs w) (fs w')
                        /\ same_channels w w'
  | Raise e => w' = w /\ exists cls, e = library_error env cls path
  end.
Proof.
  unfold mkdir_member. destruct (locate env (fs w) path) as [loc|cls].
  - destruct (is_dir (fs w) loc) eqn:E.
    + intros [= <- <-]. exists loc. auto using adds_dirs_refl, same_channels_refl.
    + destruct (fs w !! loc) as [[|d]|] eqn:El.
      * exfalso. exact (is_dir_lookup _ _ E El).
      * destruct (makedir_tolerant env) eqn:Htol; intros [= <- <-]; [|eauto].
        exists loc. split; [reflexivity|]. split; [right; eauto|].
        auto using adds_dirs_refl, same_channels_refl.
      * intros [= <- <-]. exists loc. split; [reflexivity|].
        assert (Hne : loc <> []) by (intros ->; discriminate).
        split; [left|split; [|apply same_channels_set_fs]].
        -- cbn [fs set_fs]. unfold is_dir. destruct loc; [congruence|].
           rewrite lookup_insert_eq. reflexivity.
        -- intros l. cbn [fs set_fs]. destruct (decide (loc = l)) as [<-|Hl].
           ++ right. split; [exact El | apply lookup_insert_eq].
           ++ left. apply lookup_insert_ne, Hl.
  - intros [= <- <-]. eauto.
Qed.

Lemma makedirs_inv env path w r w' :
  makedirs env path w = (r, w') ->
  adds_dirs (fs w) (fs w') /\ same_channels w w'
  /\ match r with
     | Ok _ => True
     | Raise e => exists cls, e = library_error env cls path
     end.
Proof.
  unfold makedirs. destruct (String.eqb path "").
  - intros [= <- <-]. eauto using adds_dirs_refl, same_channels_refl.
  - pose proof (mkdirs_adds_dirs (split_sep path) (fs w)
                  (if startswith_sep path then [] else getcwd env)) as Hadd.
    destruct (mkdirs (fs w) _ (split_sep path)) as [f [cls|]];
      intros [= <- <-]; cbn [fs set_fs]; eauto using same_channels_set_fs.
Qed.

(** ** Extraction of the members *)

Lemma make_upperdirs_inv env upperdirs w r w' :
  make_upperdirs env upperdirs w = (r, w') ->
  adds_dirs (fs w) (fs w') /\ same_channels w w'
  /\ match r with
     | Ok _ => True
     | Raise e => exists cls, e = library_error env cls upperdirs
     end.
Proof.
  unfold make_upperdirs. destruct upperdirs as [|c rest].
  - intros [= <- <-]. auto using adds_dirs_refl, same_channels_refl.
  - destruct (stat env (fs w) (String c rest)).
    + intros [= <- <-]. auto using adds_dirs_refl, same_channels_refl.
    + apply makedirs_inv.
Qed.

Lemma adds_dirs_extraction env archive path f f' :
  adds_dirs f f' -> extraction_of env archive path f f'.
Proof. intros H loc. destruct (H loc) as [E|E]; auto. Qed.

Lemma extraction_of_dirs_kept env archive path f f' :
  extraction_of env archive path f f' -> dirs_kept f f'.
Proof.
  intros H l. unfold is_dir. destruct l as [|c l]; [trivial|].
  destruct (H (c :: l)) as [->|[[-> ->]|[Hnd _]]]; [trivial | discriminate |].
  destruct (f !! (c :: l)) as [[|d]|]; congruence.
Qed.

Lemma extraction_of_file env archive path f f' loc d :
  extraction_of env archive path f f' ->
  f !! loc = Some (File d) ->
  f' !! loc = Some (File d)
  \/ exists y, In y archive /\ tarfile.isdir y = false
               /\ member_place env path y = loc
               /\ f' !! loc = Some (File (tarfile.data y)).
Proof.
  intros H Hf. destruct (H loc) as [E|[[E _]|[_ E]]].
  - left. congruence.
  - congruence.
  - right. exact E.
Qed.

Lemma directory_made_kept env archive path f f' loc :
  extraction_of env archive path f f' ->
  directory_made env f loc -> directory_made env f' loc.
Proof.
  intros Hext [Hdir|[Htol [d Hd]]].
  - left. exact (extraction_of_dirs_kept _ _ _ _ _ Hext _ Hdir).
  - right. split; [exact Htol|].
    destruct (extraction_of_file _ _ _ _ _ _ _ Hext Hd) as [E|(y & _ & _ & _ & E)]; eauto.
Qed.

Lemma extraction_of_app env a b path f g h :
  extraction_of env a path f g -> extraction_of env b path g h ->
  extraction_of env (a ++ b) path f h.
Proof.
  intros H1 H2 loc.
  destruct (H1 loc) as [E1|[[E1 E1']|(E1 & y & Hy & Hfile & Hplace & E1')]];
    destruct (H2 loc) as [E2|[[E2 E2']|(E2 & z & Hz & Hzfile & Hzplace & E2')]].
  - left. congruence.
  - right. left. split; congruence.
  - right. right. split; [congruence|].
    exists z. repeat split; auto using in_or_app.
  - right. left. split; congruence.
  - congruence.
  - congruence.
  - right. right. split; [exact E1|].
    exists y. repeat split; auto using in_or_app. congruence.
  - congruence.
  - right. right. split; [exact E1|].
    exists z. repeat split; auto using in_or_app.
Qed.

Lemma extract_member_inv env x path w r w' :
  extract_member env x path w = (r, w') ->
  same_channels w w'
  /\ extraction_of env [x] path (fs w) (fs w')
  /\ match r with
     | Ok _ => rstrip_sep (os_path.join path (tarfile.name x)) <> ""
               /\ if tarfile.isdir x
                  then directory_made env (fs w') (member_place env path x)
                  else fs w' !! member_place env path x = Some (File (tarfile.data x))
     | Raise e => exists cls arg, e = library_error env cls arg
     end.
Proof.
  unfold extract_member, bind, member_place.
  set (targetpath := rstrip_sep (os_path.join path (tarfile.name x))).
  destruct (make_upperdirs env (os_path.dirname targetpath) w) as [[[]|e] w1] eqn:E1;
    apply make_upperdirs_inv in E1 as (Hadd & Hch & He).
  - destruct (tarfile.isdir x) eqn:Hdir; intros H.
    + apply mkdir_member_inv in H. destruct r as [[]|e].
      * destruct H as (loc & Hloc & Hnow & Hadd2 & Hch2).
        apply locate_place in Hloc as [-> Hne].
        split; [eapply same_channels_trans; eassumption|].
        split; [|split; [exact Hne | exact Hnow]].
        eapply adds_dirs_extraction, adds_dirs_trans; eassumption.
      * destruct H as (-> & cls & ->).
        split; [exact Hch|]. split; [apply adds_dirs_extraction, Hadd | eauto].
    + apply write_file_inv in H. destruct r as [[]|e].
      * destruct H as (loc & Hloc & Hnot & ->).
        apply locate_place in Hloc as [-> Hnonempty].
        split; [eapply same_channels_trans; [exact Hch | apply same_channels_set_fs]|].
        cbn [fs set_fs]. split; [|split; [exact Hnonempty | apply lookup_insert_eq]].
        intros l. destruct (decide (place (getcwd env) targetpath = l)) as [<-|Hne].
        -- right. right. split.
           ++ apply is_dir_lookup in Hnot.
              destruct (Hadd (place (getcwd env) targetpath)) as [E|[E _]]; congruence.
           ++ exists x. split; [left; reflexivity|].
              split; [exact Hdir|]. split; [reflexivity | apply lookup_insert_eq].
        -- rewrite lookup_insert_ne by exact Hne.
           destruct (Hadd l) as [E|E]; auto.
      * destruct H as (-> & cls & ->).
        split; [exact Hch|]. split; [apply adds_dirs_extraction, Hadd | eauto].
  - intros [= <- <-]. destruct He as [cls ->].
    split; [exact Hch|]. split; [apply adds_dirs_extraction, Hadd | eauto].
Qed.

Lemma extractall_inv env archive path : forall w r w',
  extractall env archive path w = (r, w') ->
  same_channels w w'
  /\ extraction_of env archive path (fs w) (fs w')
  /\ match r with
     | Ok _ =>
         forall x, In x archive ->
           rstrip_sep (os_path.join path (tarfile.name x)) <> ""
           /\ if tarfile.isdir x
           then directory_made env (fs w') (member_place env path x)
           else exists y, In y archive /\ tarfile.isdir y = false
                          /\ member_place env path y = member_place env path x
                          /\ fs w' !! member_place env path x
                             = Some (File (tarfile.data y))
     | Raise e => exists cls arg, e = library_error env cls arg
     end.
Proof.
  induction archive as [|a archive IH]; intros w r w'.
  - intros [= <- <-]. split; [apply same_channels_refl|].
    split; [apply adds_dirs_extraction, adds_dirs_refl | intros x []].
  - cbn [extractall]. unfold bind.
    destruct (extract_member env a path w) as [[[]|e] w1] eqn:Ea;
      apply extract_member_inv in Ea as (Hch & Hext & Ha).
    + intros Hrest. apply IH in Hrest as (Hch' & Hext' & Hr).
      split; [eapply same_channels_trans; eassumption|].
      split; [exact (extraction_of_app env [a] archive path _ _ _ Hext Hext')|].
      destruct r as [[]|e]; [|exact Hr].
      intros x [<-|Hx]; [destruct Ha as [Hne Ha] | destruct (Hr x Hx) as [Hne Hrx]];
        (split; [exact Hne|]).
      * destruct (tarfile.isdir a) eqn:Hdir.
        -- exact (directory_made_kept _ _ _ _ _ _ Hext' Ha).
        -- destruct (extraction_of_file _ _ _ _ _ _ _ Hext' Ha)
             as [E|(y & Hy & Hfile & Hplace & E)].
           ++ exists a. repeat split; auto using in_eq.
           ++ exists y. repeat split; auto using in_cons.
      * destruct (tarfile.isdir x); [exact Hrx|].
        destruct Hrx as (y & Hy & Hrx). exists y. split; [right; exact Hy | exact Hrx].
    + intros [= <- <-]. split; [exact Hch|].
      split; [|exact Ha].
      exact (extraction_of_app env [a] archive path _ _ _ Hext
               (adds_dirs_extraction env archive path _ _ (adds_dirs_refl _))).
Qed.


(** ** Paths and the places they name *)

Lemma append_cons c (a b : string) : (String c a ++ b)%string = String c (a ++ b)%string.
Proof. reflexivity. Qed.


Lemma split_sep_cons s : exists h t, split_sep s = h :: t.
Proof.
  destruct s as [|c rest]; simpl; [eauto|].
  destruct (Ascii.eqb c sep); [eauto|].
  destruct (split_sep rest); eauto.
Qed.


Lemma step_empty loc : step loc "" = loc.
Proof. reflexivity. Qed.

Lemma fold_step_empties k loc : fold_left step (repeat EmptyString k) loc = loc.
Proof. induction k as [|k IH]; [reflexivity | exact IH]. Qed.

Lemma rstrip_sep_cons c s :
  Ascii.eqb c sep = false -> rstrip_sep (String c s) = String c (rstrip_sep s).
Proof. intros H. cbn [rstrip_sep]. rewrite H. destruct (rstrip_sep s); reflexivity. Qed.

Lemma split_sep_rstrip s :
  exists k, split_sep s = (split_sep (rstrip_sep s) ++ repeat EmptyString k)%list.
Proof.
  induction s as [|c s [k IH]].
  - exists 0%nat. reflexivity.
  - destruct (Ascii.eqb c sep) eqn:Hc.
    + cbn [split_sep rstrip_sep]. rewrite Hc.
      destruct (rstrip_sep s) as [|c' r] eqn:Hr.
      * exists (S k). rewrite IH. reflexivity.
      * exists k. cbn [split_sep]. rewrite Hc, IH. reflexivity.
    + rewrite (rstrip_sep_cons c s Hc). cbn [split_sep]. rewrite Hc, IH.
      exists k. destruct (split_sep_cons (rstrip_sep s)) as (h & t & ->). reflexivity.
Qed.

Lemma startswith_sep_rstrip s :
  rstrip_sep s <> "" -> startswith_sep (rstrip_sep s) = startswith_sep s.
Proof.
  destruct s as [|c s]; [reflexivity|]. cbn [rstrip_sep]. intros H.
  destruct (rstrip_sep s).
  - destruct (Ascii.eqb c sep) eqn:Hc; [congruence | reflexivity].
  - reflexivity.
Qed.

Lemma place_rstrip cwd s :
  rstrip_sep s <> "" -> place cwd (rstrip_sep s) = place cwd s.
Proof.
  intros H. unfold place. rewrite (startswith_sep_rstrip s H).
  destruct (split_sep_rstrip s) as [k ->].
  rewrite fold_left_app, fold_step_empties. reflexivity.
Qed.

Lemma endswith_spec (s suffix : string) :
  endswith s suffix = true <-> exists pre : string, s = (pre ++ suffix)%string.
Proof.
  induction s as [|c rest IH]; cbn [endswith].
  - rewrite orb_false_r, String.eqb_eq. split.
    + intros <-. exists "". reflexivity.
    + intros [pre H]. destruct pre; simpl in H; [exact H | discriminate].
  - rewrite orb_true_iff, String.eqb_eq, IH. split.
    + intros [<- | [pre ->]].
      * exists "". reflexivity.
      * exists (String c pre). reflexivity.
    + intros [pre H]. destruct pre as [|c' pre]; simpl in H.
      * left. exact H.
      * injection H as _ Hrest. right. exists pre. exact Hrest.
Qed.






(** ** The archive extractor *)

Lemma archive_mode_None (asset_package : string) :
  archive_mode asset_package = None <->
  forall suffix, In suffix [".tar.gz"; ".tgz"; "tar.bz2"; ".tbz"] ->
                 ~ exists pre : string, asset_package = (pre ++ suffix)%string.
Proof.
  unfold archive_mode. split.
  - intros H suffix Hin Hex. apply endswith_spec in Hex.
    simpl in Hin. destruct Hin as [<- | [<- | [<- | [<- | []]]]];
      rewrite Hex in H; simpl in H; try discriminate;
      rewrite ?orb_true_r in H;
      repeat match type of H with
             | context [if ?b then _ else _] => destruct b
             end; discriminate.
  - intros H.
    assert (Hs : forall suffix, In suffix [".tar.gz"; ".tgz"; "tar.bz2"; ".tbz"] ->
                                endswith asset_package suffix = false).
    { intros suffix Hin. destruct (endswith asset_package suffix) eqn:E; [|reflexivity].
      exfalso. apply (H suffix Hin). apply endswith_spec. exact E. }
    rewrite !Hs by (simpl; tauto). reflexivity.
Qed.





(** Whatever [extract_asset] raises once the name is accepted comes from
    a library or from the missing root, and the channels are untouched. *)
Lemma extract_asset_inv env asset_package w r w' :
  extract_asset env asset_package w = (r, w') ->
  same_channels w w'
  /\ match r with
     | Ok _ => True
     | Raise e =>
         (e = UnsupportedArchiveFormat asset_package /\ archive_mode asset_package = None
          /\ w' = w)
         \/ (exists cls msg, e = LibraryError cls msg)
         \/ e = AttributeError "'NoneType' object has no attribute 'name'"
     end.
Proof.
  unfold extract_asset. destruct (archive_mode asset_package) as [mode|] eqn:Hmode.
  - unfold bind.
    destruct (read_file env asset_package w) as [[content|e] w1] eqn:Hread;
      apply read_file_inv in Hread as [-> Hr].
    + destruct (tarfile_open env mode content) as [archive|]; cbn [ret raise].
      * destruct (extractall env archive (os_path.dirname asset_package) w)
          as [[[]|e] w1] eqn:Hall; apply extractall_inv in Hall as (Hch & _ & He).
        -- destruct (List.find tarfile.isdir archive); intros [= <- <-]; auto.
        -- intros [= <- <-]. destruct He as (cls & arg & ->).
           split; [exact Hch|]. right. left. unfold library_error. eauto.
      * intros [= <- <-]. split; [apply same_channels_refl|]. right. left. eauto.
    + intros [= <- <-]. destruct Hr as [cls ->].
      split; [apply same_channels_refl|]. right. left. unfold library_error. eauto.
  - intros [= <- <-]. split; [apply same_channels_refl|]. auto.
Qed.

(** C4, at the input where the code leaves it.  The name "jdktar.bz2" ends
    in none of [.tar.gz], [.tgz], [.tar.bz2], [.tbz], yet [extract_asset]
    takes it for a bzip2 archive: it never raises UnsupportedArchiveFormat
    on it, and extracts what the file holds. *)
Theorem extract_asset_undotted_bz2 :
  let asset_package := "/opt/java/jdktar.bz2" in
  Forall (fun suffix => ~ exists pre : string, asset_package = (pre ++ suffix)%string)
         [".tar.gz"; ".tgz"; ".tar.bz2"; ".tbz"]
  /\ archive_mode asset_package = Some "r:bz2"
  /\ (forall (env : Env) (w : World),
        fst (extract_asset env asset_package w)
        <> Raise (UnsupportedArchiveFormat asset_package))
  /\ (let env := Bench.env "x86_64" (fun _ => None) in
      let w := Bench.opt_java [("jdktar.bz2", File Bench.jdk11)] in
      fst (extract_asset env asset_package w) = Ok "/opt/java/jdk-11-bz2"
      /\ stat env (fs (snd (extract_asset env asset_package w)))
              "/opt/java/jdk-11-bz2/bin/java"
         = Some (File (bytes_of_string "ELF"))).
Proof.
  intros asset_package. split; [|split; [|split]].
  - repeat constructor; intros Hex; apply endswith_spec in Hex;
      vm_compute in Hex; discriminate.
  - reflexivity.
  - intros env w Heq.
    destruct (extract_asset env asset_package w) as [r w'] eqn:Hrun.
    apply extract_asset_inv in Hrun as [_ Hr]. cbn [fst] in Heq. subst r.
    destruct Hr as [(_ & Hmode & _)|[(cls & msg & He)|He]]; discriminate.
  - split; vm_compute; reflexivity.
Qed.







(** ** The platform resolver *)

Lemma architecture_map_None (m : string) :
  ~ In m ["AMD64"; "x86_64"; "i386"; "x86"] -> architecture_map !! m = None.
Proof.
  intros H. unfold architecture_map. apply not_elem_of_list_to_map_1.
  rewrite list_elem_of_In. exact H.
Qed.

Lemma get_jdk_unsupported env asset_dir w :
  architecture (system_facts env) = None ->
  get_jdk env asset_dir w = (Raise UnsupportedArchitecture, w).
Proof. intros H. unfold get_jdk. rewrite H. reflexivity. Qed.

(** C7. The machine names "x86_64" and "AMD64" resolve to the same token;
    on a machine name outside the mapping [get_jdk] raises
    UnsupportedArchitecture and leaves the world untouched, so the run ends
    with no request sent: with UnsupportedArchitecture when the destination
    directory was made, and with that step's own error otherwise. *)
Theorem unsupported_architecture_before_network :
  forall env : Env,
    (platform_machine env = "x86_64" \/ platform_machine env = "AMD64" ->
     architecture (system_facts env) = Some "x64")
    /\ (~ In (platform_machine env) ["AMD64"; "x86_64"; "i386"; "x86"] ->
        architecture (system_facts env) = None
        /\ (forall asset_dir w,
              get_jdk env asset_dir w = (Raise UnsupportedArchitecture, w))
        /\ (forall directory o w w0,
              makedirs env (abspath env directory) w = (Ok tt, w0) ->
              main env directory o w = (Raise UnsupportedArchitecture, w0)
              /\ requests w0 = requests w)
        /\ (forall directory o w,
              exists e w', main env directory o w = (Raise e, w')
                           /\ requests w' = requests w)).
Proof.
  intros env. split.
  - intros [H|H]; unfold system_facts; cbn [architecture]; rewrite H; reflexivity.
  - intros Hout.
    assert (Hnone : architecture (system_facts env) = None)
      by (apply architecture_map_None; exact Hout).
    split; [exact Hnone|]. split; [|split].
    + intros asset_dir w. apply get_jdk_unsupported. exact Hnone.
    + intros directory o w w0 Hmk.
      unfold main, pipeline, bind. rewrite Hmk.
      rewrite get_jdk_unsupported by exact Hnone.
      apply makedirs_inv in Hmk as (_ & (Hreq & _) & _). split; [reflexivity | exact Hreq].
    + intros directory o w.
      unfold main, pipeline, bind.
      destruct (makedirs env (abspath env directory) w) as [[[]|e] w0] eqn:Hmk;
        pose proof (makedirs_inv _ _ _ _ _ Hmk) as (_ & (Hreq & _) & _).
      * rewrite get_jdk_unsupported by exact Hnone. do 2 eexists. split; [reflexivity | exact Hreq].
      * do 2 eexists. split; [reflexivity | exact Hreq].
Qed.

Lemma unsupported_architecture_before_network_witness :
  let catalog := Bench.catalog_of Bench.package11 Bench.package16 in
  architecture (system_facts (Bench.env "x86_64" catalog))
  = architecture (system_facts (Bench.env "AMD64" catalog))
  /\ exists w', main (Bench.env "aarch64" catalog) "/opt/java" None Bench.w0
                = (Raise UnsupportedArchitecture, w')
                /\ requests w' = [] /\ stdout w' = []
                /\ stat (Bench.env "aarch64" catalog) (fs w') "/opt/java" = Some Dir.
Proof.
  intros catalog. split.
  - destruct (unsupported_architecture_before_network (Bench.env "x86_64" catalog)) as [H1 _].
    destruct (unsupported_architecture_before_network (Bench.env "AMD64" catalog)) as [H2 _].
    rewrite H1 by (left; reflexivity). rewrite H2 by (right; reflexivity). reflexivity.
  - destruct (unsupported_architecture_before_network (Bench.env "aarch64" catalog))
      as [_ H].
    destruct H as (_ & _ & Hmain & _).
    + simpl. intuition discriminate.
    + exists (snd (makedirs (Bench.env "aarch64" catalog) "/opt/java" Bench.w0)).
      destruct (Hmain "/opt/java" None Bench.w0
                  (snd (makedirs (Bench.env "aarch64" catalog) "/opt/java" Bench.w0)))
        as [Hrun Hreq]; [reflexivity|].
      split; [exact Hrun|]. split; [exact Hreq|]. split; reflexivity.
Defined.

(** ** The orchestrator: the loop over the versions *)

Lemma for_versions_skip env arch dir ver rest acc w w1 :
  process_version env arch dir ver w = (Ok None, w1) ->
  for_versions env arch dir (ver :: rest) acc w = for_versions env arch dir rest acc w1.
Proof. intros H. cbn [for_versions]. rewrite (bind_Ok _ _ _ _ _ H). reflexivity. Qed.

Lemma for_versions_keep env arch dir ver rest acc w asset w1 :
  process_version env arch dir ver w = (Ok (Some asset), w1) ->
  for_versions env arch dir (ver :: rest) acc w
  = for_versions env arch dir rest (acc ++ [asset]) w1.
Proof. intros H. cbn [for_versions]. rewrite (bind_Ok _ _ _ _ _ H). reflexivity. Qed.

Lemma for_versions_raise env arch dir ver rest acc w e w1 :
  process_version env arch dir ver w = (Raise e, w1) ->
  for_versions env arch dir (ver :: rest) acc w = (Raise e, w1).
Proof. intros H. cbn [for_versions]. apply bind_Raise. exact H. Qed.

Lemma for_versions_app env arch dir pre versions :
  forall acc0 w0 acc w,
    for_versions env arch dir pre acc0 w0 = (Ok acc, w) ->
    for_versions env arch dir (pre ++ versions) acc0 w0
    = for_versions env arch dir versions acc w.
Proof.
  induction pre as [|ver pre IH]; intros acc0 w0 acc w H.
  - cbn in H. injection H as <- <-. reflexivity.
  - cbn [for_versions app] in *. unfold bind in *.
    destruct (process_version env arch dir ver w0) as [[r|e] w1]; [|discriminate].
    apply IH. exact H.
Qed.

Lemma process_version_no_checksum env arch dir ver w java_asset binary fields w1 :
  fetch_adoptium env ver arch w = (Ok java_asset, w1) ->
  getitem java_asset "binary" = Ok binary ->
  getitem binary "package" = Ok (JObj fields) ->
  dict_get fields "checksum" = None \/ dict_get fields "checksum" = Some JNull ->
  process_version env arch dir ver w
  = (Ok None, printed "skipping, no checksum provided" w1).
Proof.
  intros Hfetch Hbinary Hpackage Hchecksum.
  unfold process_version. rewrite (bind_Ok _ _ _ _ _ Hfetch).
  unfold bind, lift. rewrite Hbinary, Hpackage. cbn [get].
  destruct Hchecksum as [-> | ->]; reflexivity.
Qed.

Lemma with_TemporaryDirectory_run env {A} (body : string -> M A) w :
  with_TemporaryDirectory env body w
  = (fst (body (mkdtemp env (tmpdirs w)) (created env (mkdtemp env (tmpdirs w)) w)),
     removed env (mkdtemp env (tmpdirs w))
             (snd (body (mkdtemp env (tmpdirs w)) (created env (mkdtemp env (tmpdirs w)) w)))).
Proof.
  unfold with_TemporaryDirectory.
  destruct (body (mkdtemp env (tmpdirs w)) (created env (mkdtemp env (tmpdirs w)) w)).
  reflexivity.
Qed.

Lemma fetch_verified_mismatch env dir ver fields tmp w
      name checksum signature_link link signature package wB wC wD :
  dict_get fields "name" = Some name ->
  dict_get fields "checksum" = Some checksum ->
  dict_get fields "signature_link" = Some signature_link ->
  dict_get fields "link" = Some link ->
  download_asset env signature_link tmp
    (printed ("created temporary directory [java " ++ ver ++ "]: " ++ tmp) w)
  = (Ok signature, wB) ->
  download_asset env link tmp wB = (Ok package, wC) ->
  verify_asset env [("name", name); ("checksum", checksum);
                ("signature", JStr signature); ("package", JStr package)] wC
  = (Ok false, wD) ->
  fetch_verified env dir ver (JObj fields) tmp w = (Raise (ChecksumMismatch ver), wD).
Proof.
  intros Hname Hchecksum Hsl Hlink Hsig Hpkg Hverify.
  unfold fetch_verified.
  unfold bind at 1. unfold print at 1.
  unfold bind at 1. unfold lift at 1. cbn [getitem]. rewrite Hname.
  unfold bind at 1. unfold lift at 1. cbn [getitem]. rewrite Hchecksum.
  unfold bind at 1. unfold lift at 1. cbn [getitem]. rewrite Hsl.
  rewrite (bind_Ok _ _ _ _ _ Hsig).
  unfold bind at 1. unfold lift at 1. cbn [getitem]. rewrite Hlink.
  rewrite (bind_Ok _ _ _ _ _ Hpkg).
  cbn [dict_set String.eqb Ascii.eqb Bool.eqb].
  rewrite (bind_Ok _ _ _ _ _ Hverify). reflexivity.
Qed.

Lemma process_version_mismatch env arch dir ver w java_asset binary fields w1
      name checksum signature_link link signature package wB wC wD :
  fetch_adoptium env ver arch w = (Ok java_asset, w1) ->
  getitem java_asset "binary" = Ok binary ->
  getitem binary "package" = Ok (JObj fields) ->
  dict_get fields "name" = Some name ->
  dict_get fields "checksum" = Some checksum ->
  checksum <> JNull ->
  dict_get fields "signature_link" = Some signature_link ->
  dict_get fields "link" = Some link ->
  download_asset env signature_link (mkdtemp env (tmpdirs w1))
    (printed ("created temporary directory [java " ++ ver ++ "]: "
              ++ mkdtemp env (tmpdirs w1))
             (created env (mkdtemp env (tmpdirs w1)) w1))
  = (Ok signature, wB) ->
  download_asset env link (mkdtemp env (tmpdirs w1)) wB = (Ok package, wC) ->
  verify_asset env [("name", name); ("checksum", checksum);
                ("signature", JStr signature); ("package", JStr package)] wC
  = (Ok false, wD) ->
  process_version env arch dir ver w
  = (Raise (ChecksumMismatch ver), removed env (mkdtemp env (tmpdirs w1)) wD).
Proof.
  intros Hfetch Hbinary Hpackage Hname Hchecksum Hnull Hsl Hlink Hsig Hpkg Hverify.
  unfold process_version. rewrite (bind_Ok _ _ _ _ _ Hfetch).
  unfold bind at 1. unfold lift at 1. rewrite Hbinary.
  unfold bind at 1. unfold lift at 1. rewrite Hpackage.
  unfold bind at 1. unfold lift at 1. cbn [get]. rewrite Hchecksum.
  assert (Hsome : match checksum with
                  | JNull => Ok None
                  | _ => Ok (Some checksum)
                  end = @Ok (option json) (Some checksum))
    by (destruct checksum; congruence).
  rewrite Hsome. unfold bind at 1.
  rewrite with_TemporaryDirectory_run.
  rewrite (fetch_verified_mismatch env dir ver fields _ _ name checksum signature_link
             link signature package wB wC wD); try assumption.
  reflexivity.
Qed.

(** C3. The two checksum failures are handled differently.  A version
    whose catalog entry has no checksum is skipped: the skip is printed and
    the loop goes on with the next version, the assets gathered so far
    unchanged.  A version whose package fails verification ends the run:
    the loop and the whole script raise ChecksumMismatch in the world that
    version's attempt left, whatever versions were still to come and
    whatever output was asked for, so nothing is dumped. *)
Theorem checksum_failures_asymmetric :
  forall (env : Env) (arch dir : string),
    (forall ver rest acc w java_asset binary fields w1,
        fetch_adoptium env ver arch w = (Ok java_asset, w1) ->
        getitem java_asset "binary" = Ok binary ->
        getitem binary "package" = Ok (JObj fields) ->
        dict_get fields "checksum" = None \/ dict_get fields "checksum" = Some JNull ->
        for_versions env arch dir (ver :: rest) acc w
        = for_versions env arch dir rest acc
            (printed "skipping, no checksum provided" w1))
    /\ (forall directory o w w0 pre ver rest acc w' java_asset binary fields w1
               name checksum signature_link link signature package wB wC wD,
          dir = abspath env directory ->
          makedirs env dir w = (Ok tt, w0) ->
          architecture (system_facts env) = Some arch ->
          java_versions = (pre ++ ver :: rest)%list ->
          for_versions env arch dir pre [] w0 = (Ok acc, w') ->
          fetch_adoptium env ver arch w' = (Ok java_asset, w1) ->
          getitem java_asset "binary" = Ok binary ->
          getitem binary "package" = Ok (JObj fields) ->
          dict_get fields "name" = Some name ->
          dict_get fields "checksum" = Some checksum ->
          checksum <> JNull ->
          dict_get fields "signature_link" = Some signature_link ->
          dict_get fields "link" = Some link ->
          download_asset env signature_link (mkdtemp env (tmpdirs w1))
            (printed ("created temporary directory [java " ++ ver ++ "]: "
                      ++ mkdtemp env (tmpdirs w1))
                     (created env (mkdtemp env (tmpdirs w1)) w1))
          = (Ok signature, wB) ->
          download_asset env link (mkdtemp env (tmpdirs w1)) wB = (Ok package, wC) ->
          verify_asset env [("name", name); ("checksum", checksum);
                        ("signature", JStr signature); ("package", JStr package)] wC
          = (Ok false, wD) ->
          let w_abort := removed env (mkdtemp env (tmpdirs w1)) wD in
          for_versions env arch dir (ver :: rest) acc w'
          = (Raise (ChecksumMismatch ver), w_abort)
          /\ main env directory o w = (Raise (ChecksumMismatch ver), w_abort)
          /\ requests w_abort = requests wD
          /\ stdout w_abort = stdout wD).
Proof.
  intros env arch dir. split.
  - intros ver rest acc w java_asset binary fields w1 Hfetch Hbinary Hpackage Hchecksum.
    apply for_versions_skip.
    eapply process_version_no_checksum; eassumption.
  - intros directory o w w0 pre ver rest acc w' java_asset binary fields w1
           name checksum signature_link link signature package wB wC wD
           Hdir Hmk Harch Hsplit Hpre Hfetch Hbinary Hpackage Hname Hchecksum Hnull
           Hsl Hlink Hsig Hpkg Hverify w_abort.
    assert (Hloop : for_versions env arch dir (ver :: rest) acc w'
                    = (Raise (ChecksumMismatch ver), w_abort)).
    { apply for_versions_raise.
      eapply process_version_mismatch; eassumption. }
    split; [exact Hloop|]. split; [|split; reflexivity].
    unfold main, pipeline. subst dir.
    unfold bind at 1. unfold bind at 1. rewrite Hmk.
    unfold bind at 1. unfold get_jdk. rewrite Harch, Hsplit.
    rewrite (for_versions_app _ _ _ _ _ _ _ _ _ Hpre), Hloop. reflexivity.
Qed.

Lemma checksum_failures_asymmetric_witness :
  let skipping := Bench.env "x86_64"
                    (Bench.catalog_of (Bench.without "checksum" Bench.package11)
                                      Bench.package16) in
  let failing := Bench.env "x86_64" (Bench.catalog_of Bench.package11_bad Bench.package16) in
  for_versions skipping "x64" "/opt/java" ["11"; "16"] [] Bench.w0
  = for_versions skipping "x64" "/opt/java" ["16"] []
      (printed "skipping, no checksum provided" (logged (api_url "11" "x64") Bench.w0))
  /\ exists w_abort,
      main failing "/opt/java" None Bench.w0 = (Raise (ChecksumMismatch "11"), w_abort)
      /\ requests w_abort = [api_url "11" "x64"; "https://example.org/jdk11.tar.gz.sig";
                             "https://example.org/jdk11.tar.gz"]
      /\ stdout w_abort
         = ["created temporary directory [java 11]: /tmp/tmp0";
            "downloading asset: https://example.org/jdk11.tar.gz.sig to /tmp/tmp0/jdk11.tar.gz.sig";
            "downloading asset: https://example.org/jdk11.tar.gz to /tmp/tmp0/jdk11.tar.gz"].
Proof.
  intros skipping failing. split.
  - destruct (checksum_failures_asymmetric skipping "x64" "/opt/java") as [Hskip _].
    eapply Hskip.
    + reflexivity.
    + reflexivity.
    + reflexivity.
    + left. reflexivity.
  - destruct (checksum_failures_asymmetric failing "x64" "/opt/java") as [_ Habort].
    pose (w0 := snd (makedirs failing "/opt/java" Bench.w0)).
    pose (w1 := logged (api_url "11" "x64") w0).
    pose (wA := printed "created temporary directory [java 11]: /tmp/tmp0"
                        (created failing "/tmp/tmp0" w1)).
    pose (wB := snd (download_asset failing (JStr "https://example.org/jdk11.tar.gz.sig")
                                    "/tmp/tmp0" wA)).
    pose (wC := snd (download_asset failing (JStr "https://example.org/jdk11.tar.gz")
                                    "/tmp/tmp0" wB)).
    destruct (Habort "/opt/java" None Bench.w0 w0 [] "11" ["16"] [] w0
                (Bench.entry Bench.package11_bad)
                (JObj [("image_type", JStr "jdk"); ("package", JObj Bench.package11_bad)])
                Bench.package11_bad w1
                (JStr "jdk11.tar.gz") (JStr Bench.sha_jdk16)
                (JStr "https://example.org/jdk11.tar.gz.sig")
                (JStr "https://example.org/jdk11.tar.gz")
                "/tmp/tmp0/jdk11.tar.gz.sig" "/tmp/tmp0/jdk11.tar.gz" wB wC wC)
      as (_ & Hmain & Hreq & Hout).
    + reflexivity.
    + reflexivity.
    + reflexivity.
    + reflexivity.
    + reflexivity.
    + vm_compute. reflexivity.
    + reflexivity.
    + reflexivity.
    + reflexivity.
    + reflexivity.
    + discriminate.
    + reflexivity.
    + reflexivity.
    + vm_compute. reflexivity.
    + vm_compute. reflexivity.
    + vm_compute. reflexivity.
    + eexists. split; [exact Hmain|]. split.
      * rewrite Hreq. vm_compute. reflexivity.
      * rewrite Hout. vm_compute. reflexivity.
Defined.


(** ** The extraction loop of the main block *)

Lemma write_file_stat env path data w w' :
  write_file env path data w = (Ok tt, w') ->
  stat env (fs w') path = Some (File data) /\ same_channels w w'.
Proof.
  intros H. apply write_file_inv in H as (loc & Hloc & Hnot & ->).
  split; [|apply same_channels_set_fs].
  cbn [fs set_fs]. unfold stat.
  rewrite (locate_dirs_kept env (fs w) (<[loc := File data]> (fs w)) path loc).
  - rewrite is_dir_insert_file, Hnot by exact Hnot. apply lookup_insert_eq.
  - intros l Hl. rewrite is_dir_insert_file by exact Hnot. exact Hl.
  - exact Hloc.
Qed.

Lemma extract_one_kept env asset w p d w1 :
  dict_get asset "path" = Some (JStr p) ->
  extract_asset env p w = (Ok d, w1) ->
  extract_one env asset w = (Ok (Some (dict_set asset "path" (JStr d))), w1).
Proof.
  intros Hpath Hextract.
  unfold extract_one, try_except, bind, lift, getitem, ret.
  rewrite Hpath, Hextract. reflexivity.
Qed.

Lemma extract_one_dropped env asset w p ex w1 :
  dict_get asset "path" = Some (JStr p) ->
  extract_asset env p w = (Raise ex, w1) ->
  extract_one env asset w = (Ok None, printed (str_exn ex) w1).
Proof.
  intros Hpath Hextract.
  unfold extract_one, try_except, bind, lift, getitem, ret.
  rewrite Hpath, Hextract. reflexivity.
Qed.

(** The loop body never raises: it keeps the asset under the path
    [extract_asset] returned for the asset's path, printing nothing, or
    drops it and prints one line. *)
Lemma extract_one_total env asset w :
  exists w1,
    requests w1 = requests w /\ tmpdirs w1 = tmpdirs w
    /\ ((exists line, extract_one env asset w = (Ok None, w1)
                      /\ stdout w1 = (stdout w ++ [line])%list)
        \/ (exists p d, dict_get asset "path" = Some (JStr p)
                        /\ extract_asset env p w = (Ok d, w1)
                        /\ extract_one env asset w
                           = (Ok (Some (dict_set asset "path" (JStr d))), w1)
                        /\ stdout w1 = stdout w)).
Proof.
  unfold extract_one, try_except, bind, lift, getitem, ret, raise, print.
  destruct (dict_get asset "path") as [[| | |p| |]|] eqn:Hp;
    try (eexists; split; [|split; [|left; eexists; split; reflexivity]]; reflexivity).
  destruct (extract_asset env p w) as [[d|ex] w1] eqn:Hx;
    pose proof (extract_asset_inv env p w _ w1 Hx) as [(Hreq & Hout & Htmp) _].
  - exists w1. split; [exact Hreq|]. split; [exact Htmp|].
    right. exists p, d. auto.
  - exists (printed (str_exn ex) w1). split; [exact Hreq|]. split; [exact Htmp|].
    left. exists (str_exn ex). split; [reflexivity|]. cbn [stdout printed]. rewrite Hout.
    reflexivity.
Qed.

Lemma extract_all_total env assets :
  forall acc w,
    exists kept lines w',
      extract_all env assets acc w = (Ok (acc ++ repathed kept)%list, w')
      /\ sublist (map fst kept) assets
      /\ Forall (kept_path env) kept
      /\ stdout w' = (stdout w ++ lines)%list
      /\ (length kept + length lines)%nat = length assets
      /\ requests w' = requests w /\ tmpdirs w' = tmpdirs w.
Proof.
  induction assets as [|asset rest IH]; intros acc w.
  - exists [], [], w. cbn. rewrite !app_nil_r.
    repeat split; constructor.
  - cbn [extract_all].
    destruct (extract_one_total env asset w)
      as (w1 & Hreq & Htmp & [(line & H & Hout) | (p & d & Hp & Hx & H & Hout)]);
      rewrite (bind_Ok _ _ _ _ _ H).
    + destruct (IH acc w1) as (kept & lines & w' & Hrun & Hsub & Hkept & Hlines & Hlen & Hr & Ht).
      exists kept, (line :: lines), w'. split; [exact Hrun|].
      split; [apply sublist_cons; exact Hsub|]. split; [exact Hkept|].
      split; [rewrite Hlines, Hout, <- app_assoc; reflexivity|].
      split; [cbn [length]; lia|]. split; congruence.
    + destruct (IH (acc ++ [dict_set asset "path" (JStr d)])%list w1)
        as (kept & lines & w' & Hrun & Hsub & Hkept & Hlines & Hlen & Hr & Ht).
      exists ((asset, d) :: kept), lines, w'. split.
      * rewrite Hrun, <- app_assoc. reflexivity.
      * split; [cbn; apply sublist_skip; exact Hsub|].
        split; [constructor; [exists p, w, w1; auto | exact Hkept]|].
        split; [congruence|]. split; [cbn [length]; lia|]. split; congruence.
Qed.

(** C6. In the extraction loop a failing [extract_asset] is caught: its
    message is printed as one more line of the output and the asset dropped,
    the loop going on with the assets that remain; a successful one is kept
    under its extracted path and prints nothing.  The loop never raises: it
    returns, in order, the assets it kept, having printed one line for each
    asset it dropped.  The script then dumps exactly the list the loop
    returned: as one more line of the standard output without [-o]; with
    [-o], into the named file when that can be written, and when it cannot,
    the error is printed and the run ends on the unbound [outputFile]. *)
Theorem extraction_failure_is_soft_skip :
  forall env : Env,
    (forall asset rest acc w p ex w1,
        dict_get asset "path" = Some (JStr p) ->
        extract_asset env p w = (Raise ex, w1) ->
        exists w2,
          extract_all env (asset :: rest) acc w = extract_all env rest acc w2
          /\ stdout w2 = (stdout w ++ [str_exn ex])%list
          /\ fs w2 = fs w1 /\ requests w2 = requests w /\ tmpdirs w2 = tmpdirs w)
    /\ (forall asset rest acc w p d w1,
          dict_get asset "path" = Some (JStr p) ->
          extract_asset env p w = (Ok d, w1) ->
          extract_all env (asset :: rest) acc w
          = extract_all env rest (acc ++ [dict_set asset "path" (JStr d)])%list w1
          /\ stdout w1 = stdout w)
    /\ (forall assets acc w,
          exists kept lines w',
            extract_all env assets acc w = (Ok (acc ++ repathed kept)%list, w')
            /\ sublist (map fst kept) assets
            /\ Forall (kept_path env) kept
            /\ stdout w' = (stdout w ++ lines)%list
            /\ (length kept + length lines)%nat = length assets)
    /\ (forall directory w w0 assets w1 xs w2,
          makedirs env (abspath env directory) w = (Ok tt, w0) ->
          get_jdk env (abspath env directory) w0 = (Ok assets, w1) ->
          extract_all env assets [] w1 = (Ok xs, w2) ->
          (exists w3,
              main env directory None w = (Ok tt, w3)
              /\ stdout w3 = (stdout w2 ++ [json_dumps env xs])%list
              /\ fs w3 = fs w2)
          /\ (forall path,
                path <> "" ->
                let data := bytes_of_string (json_dumps env xs) in
                (forall w3,
                    write_file env path data w2 = (Ok tt, w3) ->
                    main env directory (Some path) w = (Ok tt, w3)
                    /\ stat env (fs w3) path = Some (File data)
                    /\ stdout w3 = stdout w2)
                /\ (forall e w3,
                      write_file env path data w2 = (Raise e, w3) ->
                      exists w4,
                        main env directory (Some path) w
                        = (Raise (NameError "name 'outputFile' is not defined"), w4)
                        /\ stdout w4 = (stdout w2 ++ [str_exn e])%list
                        /\ fs w4 = fs w2))).
Proof.
  intros env. split; [|split; [|split]].
  - intros asset rest acc w p ex w1 Hpath Hextract.
    exists (printed (str_exn ex) w1). cbn [extract_all].
    rewrite (bind_Ok _ _ _ _ _ (extract_one_dropped env asset w p ex w1 Hpath Hextract)).
    apply extract_asset_inv in Hextract as [(Hreq & Hout & Htmp) _].
    cbn [stdout fs requests tmpdirs printed]. rewrite Hout. auto.
  - intros asset rest acc w p d w1 Hpath Hextract.
    cbn [extract_all].
    rewrite (bind_Ok _ _ _ _ _ (extract_one_kept env asset w p d w1 Hpath Hextract)).
    apply extract_asset_inv in Hextract as [(_ & Hout & _) _]. auto.
  - intros assets acc w.
    destruct (extract_all_total env assets acc w)
      as (kept & lines & w' & H1 & H2 & H3 & H4 & H5 & _).
    exists kept, lines, w'. auto.
  - intros directory w w0 assets w1 xs w2 Hmk Hjdk Hrun.
    assert (Hpipe : pipeline env directory w = (Ok xs, w2)).
    { unfold pipeline. unfold bind at 1. rewrite Hmk.
      unfold bind at 1. rewrite Hjdk. exact Hrun. }
    split.
    + exists (printed (json_dumps env xs) w2).
      unfold main. rewrite (bind_Ok _ _ _ _ _ Hpipe). auto.
    + intros path Hpath data. unfold main. rewrite (bind_Ok _ _ _ _ _ Hpipe).
      destruct path as [|c path]; [congruence|].
      unfold dump, try_except. fold data. split.
      * intros w3 Hw. rewrite Hw. split; [reflexivity|].
        apply write_file_stat in Hw as [Hstat (_ & Hout & _)]. auto.
      * intros e w3 Hw. rewrite Hw.
        exists (printed (str_exn e) w3).
        apply write_file_inv in Hw as [-> _]. auto.
Qed.

Lemma extraction_failure_is_soft_skip_witness :
  let env := Bench.env "x86_64" (Bench.catalog_of Bench.package11 Bench.package16_zip) in
  let a11 : pydict :=
    [("name", JStr "jdk11.tar.gz"); ("checksum", JStr Bench.sha_jdk11);
     ("signature", JStr "/tmp/tmp0/jdk11.tar.gz.sig");
     ("package", JStr "/tmp/tmp0/jdk11.tar.gz"); ("path", JStr "/opt/java/jdk-11")] in
  let a16 : pydict :=
    [("name", JStr "jdk16.zip"); ("checksum", JStr Bench.sha_jdk16);
     ("signature", JStr "/tmp/tmp1/jdk16.tgz.sig");
     ("package", JStr "/tmp/tmp1/jdk16.tgz"); ("path", JStr "/opt/java/jdk16.zip")] in
  let lines :=
    ["created temporary directory [java 11]: /tmp/tmp0";
     "downloading asset: https://example.org/jdk11.tar.gz.sig to /tmp/tmp0/jdk11.tar.gz.sig";
     "downloading asset: https://example.org/jdk11.tar.gz to /tmp/tmp0/jdk11.tar.gz";
     "created temporary directory [java 16]: /tmp/tmp1";
     "downloading asset: https://example.org/jdk16.tgz.sig to /tmp/tmp1/jdk16.tgz.sig";
     "downloading asset: https://example.org/jdk16.tgz to /tmp/tmp1/jdk16.tgz";
     "unexpected asset archive: /opt/java/jdk16.zip"] in
  (exists w2,
      extract_all env [a16] [a11] Bench.w0 = (Ok [a11], w2)
      /\ stdout w2 = ["unexpected asset archive: /opt/java/jdk16.zip"])
  /\ (exists w3,
        main env "/opt/java" None Bench.w0 = (Ok tt, w3)
        /\ stdout w3 = (lines ++ [json_dumps env [a11]])%list)
  /\ (exists w3,
        main env "/opt/java" (Some "/opt/java/out.json") Bench.w0 = (Ok tt, w3)
        /\ stat env (fs w3) "/opt/java/out.json"
           = Some (File (bytes_of_string (json_dumps env [a11])))
        /\ stdout w3 = lines)
  /\ (exists w4,
        main env "/opt/java" (Some "/no/such/dir/out.json") Bench.w0
        = (Raise (NameError "name 'outputFile' is not defined"), w4)
        /\ stdout w4 = (lines ++ ["FileNotFoundError: '/no/such/dir/out.json'"])%list).
Proof.
  intros env a11 a16 lines.
  destruct (extraction_failure_is_soft_skip env) as (Hdrop & _ & _ & Hmain).
  split.
  - destruct (Hdrop a16 [] [a11] Bench.w0 "/opt/java/jdk16.zip"
                (UnsupportedArchiveFormat "/opt/java/jdk16.zip") Bench.w0)
      as (w2 & Hrun & Hout & _); [reflexivity | vm_compute; reflexivity |].
    exists w2. split; [exact Hrun | exact Hout].
  - pose (w0 := snd (makedirs env "/opt/java" Bench.w0)).
    pose (w1 := snd (get_jdk env "/opt/java" w0)).
    destruct (Hmain "/opt/java" Bench.w0 w0
                [[("name", JStr "jdk11.tar.gz"); ("checksum", JStr Bench.sha_jdk11);
                  ("signature", JStr "/tmp/tmp0/jdk11.tar.gz.sig");
                  ("package", JStr "/tmp/tmp0/jdk11.tar.gz");
                  ("path", JStr "/opt/java/jdk11.tar.gz")]; a16]
                w1 [a11]
                (snd (extract_all env
                        [[("name", JStr "jdk11.tar.gz"); ("checksum", JStr Bench.sha_jdk11);
                          ("signature", JStr "/tmp/tmp0/jdk11.tar.gz.sig");
                          ("package", JStr "/tmp/tmp0/jdk11.tar.gz");
                          ("path", JStr "/opt/java/jdk11.tar.gz")]; a16] [] w1)))
      as [(w3 & Hrun & Hout & _) Hfile].
    + vm_compute. reflexivity.
    + vm_compute. reflexivity.
    + vm_compute. reflexivity.
    + split; [|split].
      * exists w3. split; [exact Hrun|]. rewrite Hout. vm_compute. reflexivity.
      * destruct (Hfile "/opt/java/out.json") as [Hok _]; [discriminate|].
        destruct (Hok (snd (write_file env "/opt/java/out.json"
                              (bytes_of_string (json_dumps env [a11]))
                              (snd (extract_all env
                        [[("name", JStr "jdk11.tar.gz"); ("checksum", JStr Bench.sha_jdk11);
                          ("signature", JStr "/tmp/tmp0/jdk11.tar.gz.sig");
                          ("package", JStr "/tmp/tmp0/jdk11.tar.gz");
                          ("path", JStr "/opt/java/jdk11.tar.gz")]; a16] [] w1)))))
          as (Hrun' & Hstat & Hout'); [vm_compute; reflexivity|].
        eexists. split; [exact Hrun'|]. split; [exact Hstat|]. rewrite Hout'.
        vm_compute. reflexivity.
      * destruct (Hfile "/no/such/dir/out.json") as [_ Hbad]; [discriminate|].
        destruct (Hbad (library_error env "FileNotFoundError" "/no/such/dir/out.json")
                    (snd (extract_all env
                        [[("name", JStr "jdk11.tar.gz"); ("checksum", JStr Bench.sha_jdk11);
                          ("signature", JStr "/tmp/tmp0/jdk11.tar.gz.sig");
                          ("package", JStr "/tmp/tmp0/jdk11.tar.gz");
                          ("path", JStr "/opt/java/jdk11.tar.gz")]; a16] [] w1)))
          as (w4 & Hrun' & Hout' & _); [vm_compute; reflexivity|].
        exists w4. split; [exact Hrun'|]. rewrite Hout'. vm_compute. reflexivity.
Defined.

(** ** The signature link *)

Lemma fetch_verified_no_signature_link env dir ver fields tmp w name checksum :
  dict_get fields "name" = Some name ->
  dict_get fields "checksum" = Some checksum ->
  dict_get fields "signature_link" = None ->
  fetch_verified env dir ver (JObj fields) tmp w
  = (Raise (KeyError "signature_link"),
     printed ("created temporary directory [java " ++ ver ++ "]: " ++ tmp) w).
Proof.
  intros Hname Hchecksum Hsl.
  unfold fetch_verified.
  unfold bind at 1. unfold print at 1.
  unfold bind at 1. unfold lift at 1. cbn [getitem]. rewrite Hname.
  unfold bind at 1. unfold lift at 1. cbn [getitem]. rewrite Hchecksum.
  unfold bind at 1. unfold lift at 1. cbn [getitem]. rewrite Hsl.
  reflexivity.
Qed.

(** C8, at the input where the code leaves it.  The catalog entry of
    version 11 has a checksum, a name and a package link but no signature
    link: the script raises [KeyError] on the missing key, the package is
    never requested, and the run ends there with nothing stored, the
    destination directory made and empty, and nothing dumped. *)
Theorem missing_signature_link_aborts :
  let env := Bench.env "x86_64"
               (Bench.catalog_of (Bench.without "signature_link" Bench.package11)
                                 Bench.package16) in
  exists w' : World,
    main env "/opt/java" None Bench.w0 = (Raise (KeyError "signature_link"), w')
    /\ requests w' = [api_url "11" "x64"]
    /\ stdout w' = ["created temporary directory [java 11]: /tmp/tmp0"]
    /\ fs w' = <[ ["opt"; "java"] := Dir ]> (<[ ["opt"] := Dir ]> (fs Bench.w0)).
Proof.
  intros env.
  exists (mkWorld (<[ ["opt"; "java"] := Dir ]> (<[ ["opt"] := Dir ]> (fs Bench.w0)))
                  [api_url "11" "x64"]
                  ["created temporary directory [java 11]: /tmp/tmp0"] 1).
  split; [vm_compute; reflexivity | repeat split].
Qed.

(** ** The objects of the output *)

Lemma download_asset_Ok_inv env url tmp w p w' :
  download_asset env url tmp w = (Ok p, w') -> downloaded env tmp p.
Proof.
  unfold download_asset. destruct url as [| | |url| |]; try discriminate.
  unfold bind at 1. unfold http_get.
  destruct (urlopen env url) as [r|] eqn:Hopen; [|discriminate].
  destruct (http.get_filename r) as [filename|] eqn:Hname; [|discriminate].
  intros H. exists url, r, filename. split; [exact Hopen|]. split; [exact Hname|].
  apply bind_Ok_inv in H as (_ & w1 & _ & H).
  apply bind_Ok_inv in H as (_ & w2 & _ & H).
  injection H as <- _. reflexivity.
Qed.

Lemma fetch_verified_object env dir ver java_package tmp w asset w' :
  fetch_verified env dir ver java_package tmp w = (Ok asset, w') ->
  exists (name : string) (checksum : json) (signature package : string),
    asset = [("name", JStr name); ("checksum", checksum); ("signature", JStr signature);
             ("package", JStr package); ("path", JStr (os_path.join dir name))]
    /\ downloaded env tmp signature /\ downloaded env tmp package.
Proof.
  unfold fetch_verified. intros H.
  apply bind_Ok_inv in H. destruct H as (_ & w1 & _ & H).
  apply bind_Ok_inv in H. destruct H as (name & w2 & _ & H).
  apply bind_Ok_inv in H. destruct H as (checksum & w3 & _ & H).
  apply bind_Ok_inv in H. destruct H as (signature_link & w4 & _ & H).
  apply bind_Ok_inv in H. destruct H as (signature & w5 & Hsig & H).
  apply bind_Ok_inv in H. destruct H as (link & w6 & _ & H).
  apply bind_Ok_inv in H. destruct H as (package & w7 & Hpkg & H).
  apply bind_Ok_inv in H. destruct H as (verified & w8 & _ & H).
  destruct verified; cbn [negb] in H; [|discriminate].
  apply bind_Ok_inv in H. destruct H as (path & w9 & Hpath & H).
  apply bind_Ok_inv in H. destruct H as (_ & w10 & _ & H).
  injection H as <- _.
  destruct name as [| | |name| |]; try discriminate Hpath.
  injection Hpath as <- _.
  exists name, checksum, signature, package.
  split; [reflexivity|].
  split; eapply download_asset_Ok_inv; eassumption.
Qed.

Lemma process_version_object env arch dir ver w asset w' :
  process_version env arch dir ver w = (Ok (Some asset), w') ->
  fetched_object env dir asset.
Proof.
  unfold process_version. intros H.
  apply bind_Ok_inv in H. destruct H as (java_asset & w1 & _ & H).
  apply bind_Ok_inv in H. destruct H as (binary & w2 & _ & H).
  apply bind_Ok_inv in H. destruct H as (java_package & w3 & _ & H).
  apply bind_Ok_inv in H. destruct H as (checksum & w4 & _ & H).
  destruct checksum as [c|].
  - apply bind_Ok_inv in H. destruct H as (a & w5 & Hbody & H).
    injection H as <- _.
    rewrite with_TemporaryDirectory_run in Hbody.
    destruct (fetch_verified env dir ver java_package (mkdtemp env (tmpdirs w4))
                (created env (mkdtemp env (tmpdirs w4)) w4)) as [r wb] eqn:E.
    cbn [fst snd] in Hbody. injection Hbody as -> _.
    apply fetch_verified_object in E
      as (name & checksum & signature & package & -> & Hs & Hp).
    exists name, checksum, (tmpdirs w4), signature, package. auto.
  - apply bind_Ok_inv in H. destruct H as (_ & w5 & _ & H). discriminate.
Qed.

Lemma for_versions_objects env arch dir versions :
  forall acc w assets w',
    Forall (fetched_object env dir) acc ->
    for_versions env arch dir versions acc w = (Ok assets, w') ->
    Forall (fetched_object env dir) assets.
Proof.
  induction versions as [|ver rest IH]; intros acc w assets w' Hacc H.
  - cbn in H. injection H as <- _. exact Hacc.
  - cbn [for_versions] in H.
    apply bind_Ok_inv in H. destruct H as (r & w1 & Hstep & H).
    apply (IH _ _ _ _) in H; [exact H|].
    destruct r as [asset|]; [|exact Hacc].
    apply Forall_app. split; [exact Hacc|].
    constructor; [|constructor].
    eapply process_version_object. exact Hstep.
Qed.

Lemma get_jdk_objects env asset_dir w assets w' :
  get_jdk env asset_dir w = (Ok assets, w') -> Forall (fetched_object env asset_dir) assets.
Proof.
  unfold get_jdk. destruct (architecture (system_facts env)); [|discriminate].
  apply for_versions_objects. constructor.
Qed.

Lemma extract_all_objects env dir assets w xs w' :
  Forall (fetched_object env dir) assets ->
  extract_all env assets [] w = (Ok xs, w') ->
  Forall (emitted_object env dir) xs.
Proof.
  intros Hassets H.
  destruct (extract_all_total env assets [] w) as (kept & lines & w2 & Hrun & Hsub & Hkept & _).
  rewrite Hrun in H. injection H as <- _. cbn [app].
  unfold repathed. apply Forall_forall. intros a Ha.
  apply list_elem_of_fmap in Ha. destruct Ha as ([asset d] & -> & Hin).
  rewrite Forall_forall in Hassets. rewrite Forall_forall in Hkept.
  destruct (Hkept _ Hin) as (p & w1 & w1' & Hp & Hx). cbn [fst snd] in *.
  assert (Hasset : fetched_object env dir asset).
  { apply Hassets. apply (elem_of_sublist (map fst kept)); [|exact Hsub].
    apply list_elem_of_fmap. exists (asset, d). split; [reflexivity | exact Hin]. }
  destruct Hasset as (name & checksum & n & signature & package & -> & Hs & Hpk).
  injection Hp as <-.
  exists name, checksum, n, signature, package, d, w1, w1'. auto.
Qed.

Lemma pipeline_objects env directory w xs w' :
  pipeline env directory w = (Ok xs, w') ->
  Forall (emitted_object env (abspath env directory)) xs.
Proof.
  unfold pipeline. intros H.
  apply bind_Ok_inv in H. destruct H as (_ & w1 & _ & H).
  apply bind_Ok_inv in H. destruct H as (assets & w2 & Hjdk & H).
  eapply extract_all_objects; [|exact H].
  eapply get_jdk_objects. exact Hjdk.
Qed.

(** The path [extract_asset] returns names what the extraction left of
    the archive's first directory member. *)
Lemma extract_asset_Ok_dir env p w d w' :
  extract_asset env p w = (Ok d, w') -> directory_made env (fs w') (place (getcwd env) d).
Proof.
  unfold extract_asset. destruct (archive_mode p) as [mode|]; [|discriminate].
  intros H.
  apply bind_Ok_inv in H as (content & w1 & Hread & H).
  apply read_file_Ok in Hread as [-> _].
  apply bind_Ok_inv in H as (archive & w2 & Hopen & H).
  destruct (tarfile_open env mode content) as [members|]; [|discriminate].
  injection Hopen as <- <-.
  apply bind_Ok_inv in H as ([] & w3 & Hall & H).
  destruct (List.find tarfile.isdir members) as [root|] eqn:Hfind; [|discriminate].
  injection H as <- <-.
  apply find_some in Hfind as [Hin Hdir].
  apply extractall_inv in Hall as (_ & _ & Hmem).
  destruct (Hmem root Hin) as [Hne Hroot]. rewrite Hdir in Hroot.
  unfold member_place in Hroot. rewrite place_rstrip in Hroot by exact Hne.
  exact Hroot.
Qed.

(** C9 as stated fails: in the run of the bench each object of the dumped
    list has a field outside [name], [checksum], [signature], [path]. *)
Lemma emitted_object_has_package_field :
  let env := Bench.env "x86_64" (Bench.catalog_of Bench.package11 Bench.package16) in
  let a11 : pydict :=
    [("name", JStr "jdk11.tar.gz"); ("checksum", JStr Bench.sha_jdk11);
     ("signature", JStr "/tmp/tmp0/jdk11.tar.gz.sig");
     ("package", JStr "/tmp/tmp0/jdk11.tar.gz"); ("path", JStr "/opt/java/jdk-11")] in
  let a16 : pydict :=
    [("name", JStr "jdk16.tgz"); ("checksum", JStr Bench.sha_jdk16);
     ("signature", JStr "/tmp/tmp1/jdk16.tgz.sig");
     ("package", JStr "/tmp/tmp1/jdk16.tgz"); ("path", JStr "/opt/java/jdk-16")] in
  exists w' : World,
    pipeline env "/opt/java" Bench.w0 = (Ok [a11; a16], w')
    /\ main env "/opt/java" None Bench.w0
       = (Ok tt, mkWorld (fs w') (requests w')
                         (stdout w' ++ [json_dumps env [a11; a16]]) (tmpdirs w'))
    /\ In "package" (keys a11)
    /\ ~ Forall (fun d : pydict =>
                   forall k, In k (keys d) ->
                             In k ["name"; "checksum"; "signature"; "path"]) [a11; a16].
Proof.
  intros env a11 a16.
  assert (Hrun : pipeline env "/opt/java" Bench.w0
                 = (Ok [a11; a16], snd (pipeline env "/opt/java" Bench.w0)))
    by (vm_compute; reflexivity).
  exists (snd (pipeline env "/opt/java" Bench.w0)).
  split; [exact Hrun|]. split; [|split].
  - unfold main. rewrite (bind_Ok _ _ _ _ _ Hrun). reflexivity.
  - simpl. tauto.
  - intros Hall. inversion Hall as [|d ds Hd _]; subst.
    specialize (Hd "package"). cbn in Hd.
    destruct Hd as [H | [H | [H | [H | []]]]]; [tauto | discriminate ..].
Qed.

(** C9, amended.  The script dumps the list the pipeline returns, and
    every object of it has its fields among [name], [checksum],
    [signature], [package], [path], each at most once: [name] and
    [checksum] are there; [package] is there and holds the local path the
    package was downloaded to, a temporary directory joined with the file
    name the server sent; [path] is there and holds what [extract_asset]
    returned for the archive stored under the destination directory, the
    path of the archive's first directory member as the extraction left
    it; [signature], where it is there, holds the local path the signature
    was downloaded to. *)
Theorem emitted_objects_fields :
  forall (env : Env) (directory : string) (w : World) (xs : list pydict) (w' : World),
    pipeline env directory w = (Ok xs, w') ->
    (exists w3, main env directory None w = (Ok tt, w3)
                /\ stdout w3 = (stdout w' ++ [json_dumps env xs])%list)
    /\ Forall (fun d : pydict =>
                 (forall k, In k (keys d) ->
                            In k ["name"; "checksum"; "signature"; "package"; "path"])
                 /\ NoDup (keys d)
                 /\ exists (name : string) (checksum : json) (package path : string),
                      dict_get d "name" = Some (JStr name)
                      /\ dict_get d "checksum" = Some checksum
                      /\ dict_get d "package" = Some (JStr package)
                      /\ (exists n, downloaded env (mkdtemp env n) package)
                      /\ dict_get d "path" = Some (JStr path)
                      /\ (exists w1 w2,
                             extract_asset env
                               (os_path.join (abspath env directory) name) w1
                             = (Ok path, w2)
                             /\ directory_made env (fs w2) (place (getcwd env) path))
                      /\ (forall v, dict_get d "signature" = Some v ->
                            exists (signature : string) (n : nat),
                              v = JStr signature
                              /\ downloaded env (mkdtemp env n) signature)) xs.
Proof.
  intros env directory w xs w' Hrun. split.
  - exists (printed (json_dumps env xs) w').
    unfold main. rewrite (bind_Ok _ _ _ _ _ Hrun). split; reflexivity.
  - eapply Forall_impl; [apply (pipeline_objects _ _ _ _ _ Hrun)|].
    intros d (name & checksum & n & signature & package & path & w1 & w2
              & -> & Hs & Hp & Hx).
    split; [|split].
    + intros k Hk. exact Hk.
    + cbn. repeat (constructor; [rewrite !list_elem_of_In; simpl; intuition discriminate|]).
      constructor.
    + exists name, checksum, package, path.
      split; [reflexivity|]. split; [reflexivity|]. split; [reflexivity|].
      split; [eauto|]. split; [reflexivity|].
      split; [exists w1, w2; split; [exact Hx | eapply extract_asset_Ok_dir, Hx]|].
      intros v Hv. cbn in Hv. injection Hv as <-. eauto.
Qed.

Lemma emitted_objects_fields_witness :
  let env := Bench.env "x86_64" (Bench.catalog_of Bench.package11 Bench.package16) in
  let a11 : pydict :=
    [("name", JStr "jdk11.tar.gz"); ("checksum", JStr Bench.sha_jdk11);
     ("signature", JStr "/tmp/tmp0/jdk11.tar.gz.sig");
     ("package", JStr "/tmp/tmp0/jdk11.tar.gz"); ("path", JStr "/opt/java/jdk-11")] in
  let a16 : pydict :=
    [("name", JStr "jdk16.tgz"); ("checksum", JStr Bench.sha_jdk16);
     ("signature", JStr "/tmp/tmp1/jdk16.tgz.sig");
     ("package", JStr "/tmp/tmp1/jdk16.tgz"); ("path", JStr "/opt/java/jdk-16")] in
  fst (pipeline env "/opt/java" Bench.w0) = Ok [a11; a16]
  /\ (exists w3, main env "/opt/java" None Bench.w0 = (Ok tt, w3)
                 /\ last (stdout w3) = Some (json_dumps env [a11; a16]))
  /\ Forall (fun d : pydict =>
               forall k, In k (keys d) ->
                         In k ["name"; "checksum"; "signature"; "package"; "path"])
            [a11; a16].
Proof.
  intros env a11 a16.
  assert (Hrun : pipeline env "/opt/java" Bench.w0
                 = (Ok [a11; a16], snd (pipeline env "/opt/java" Bench.w0)))
    by (vm_compute; reflexivity).
  destruct (emitted_objects_fields env "/opt/java" Bench.w0 [a11; a16] _ Hrun)
    as [(w3 & Hmain & Hout) Hall].
  split; [rewrite Hrun; reflexivity|]. split.
  - exists w3. split; [exact Hmain|]. rewrite Hout. apply last_snoc.
  - eapply Forall_impl; [exact Hall|]. intros d [Hkeys _]. exact Hkeys.
Defined.

(** * Further properties *)

(** ** The integrity verifier on a stored file *)

(** X18. For a declared checksum that is valid hexadecimal and a package
    path that names a file, [verify_asset] returns, and returns true
    exactly when the SHA-256 digest of the whole file equals the decoded
    checksum, byte for byte; it leaves the world as it was. *)
Theorem verify_asset_digest_iff :
  forall (env : Env) (asset : pydict) (w : World) (path hex : string)
         (declared content : bytes),
    dict_get asset "checksum" = Some (JStr hex) ->
    dict_get asset "package" = Some (JStr path) ->
    unhexlify hex = Some declared ->
    stat env (fs w) path = Some (File content) ->
    (exists b : bool,
        verify_asset env asset w = (Ok b, w)
        /\ (b = true <-> SHA256.sha256 content = declared))
    /\ (SHA256.sha256 content = declared -> verify_asset env asset w = (Ok true, w))
    /\ (SHA256.sha256 content <> declared -> verify_asset env asset w = (Ok false, w)).
Proof.
  intros env asset w path hex declared content Hc Hp Hhex Hfile.
  rewrite (verify_asset_run env asset w path hex declared content Hc Hp Hhex Hfile).
  split; [|split].
  - eexists. split; [reflexivity|].
    rewrite bool_decide_eq_true. split; congruence.
  - intros Heq. rewrite bool_decide_true by congruence. reflexivity.
  - intros Hne. rewrite bool_decide_false by congruence. reflexivity.
Qed.

Lemma verify_asset_digest_iff_witness :
  let env := Bench.env "x86_64" (fun _ => None) in
  let asset : pydict :=
    [("checksum", JStr Bench.sha_jdk11); ("package", JStr "/opt/java/jdk11.tar.gz")] in
  let w := Bench.opt_java [("jdk11.tar.gz", File (bytes_of_string "abc"))] in
  let w' := Bench.opt_java [("jdk11.tar.gz", File (bytes_of_string "abd"))] in
  verify_asset env asset w = (Ok true, w) /\ verify_asset env asset w' = (Ok false, w').
Proof.
  intros env asset w w'. split.
  - destruct (verify_asset_digest_iff env asset w "/opt/java/jdk11.tar.gz" Bench.sha_jdk11
                (SHA256.sha256 (bytes_of_string "abc")) (bytes_of_string "abc"))
      as (_ & Hsame & _).
    + reflexivity.
    + reflexivity.
    + vm_compute. reflexivity.
    + vm_compute. reflexivity.
    + apply Hsame. reflexivity.
  - destruct (verify_asset_digest_iff env asset w' "/opt/java/jdk11.tar.gz" Bench.sha_jdk11
                (SHA256.sha256 (bytes_of_string "abc")) (bytes_of_string "abd"))
      as (_ & _ & Hdiff).
    + reflexivity.
    + reflexivity.
    + vm_compute. reflexivity.
    + vm_compute. reflexivity.
    + apply Hdiff. vm_compute. discriminate.
Defined.

(** ** The asset fetcher *)

Lemma download_asset_run env url tempdir w r filename :
  urlopen env url = Some r ->
  http.get_filename r = Some filename ->
  download_asset env (JStr url) tempdir w
  = match write_file env (os_path.join tempdir filename) (http.body r)
            (printed ("downloading asset: " ++ url ++ " to "
                      ++ os_path.join tempdir filename)
                     (logged url w)) with
    | (Ok _, w') => (Ok (os_path.join tempdir filename), w')
    | (Raise e, w') => (Raise e, w')
    end.
Proof.
  intros Hopen Hname.
  unfold download_asset, bind, http_get, print, ret.
  rewrite Hopen, Hname.
  destruct (write_file env _ _ _) as [[[]|e] w']; reflexivity.
Qed.

(** X1. A download that the server answers with a file name sends one
    request and prints one line, then opens the temporary directory joined
    with that name for writing.  When that succeeds the body is stored
    there, whole, the path is returned, and the path names that file; the
    one place written is the only change to the files.  When it fails, as
    it does where the directory of the target is missing or the target is
    a directory, the error is raised after the request and the line, and
    the files are as before. *)
Theorem download_asset_stores_body :
  forall (env : Env) (url tempdir : string) (w : World) (r : http.response)
         (filename : string),
    urlopen env url = Some r ->
    http.get_filename r = Some filename ->
    let target := os_path.join tempdir filename in
    let line := ("downloading asset: " ++ url ++ " to " ++ target)%string in
    (forall w',
        write_file env target (http.body r) (printed line (logged url w)) = (Ok tt, w') ->
        download_asset env (JStr url) tempdir w = (Ok target, w')
        /\ stat env (fs w') target = Some (File (http.body r))
        /\ fs w' = <[place (getcwd env) target := File (http.body r)]> (fs w)
        /\ is_dir (fs w) (place (getcwd env) target) = false
        /\ requests w' = (requests w ++ [url])%list
        /\ stdout w' = (stdout w ++ [line])%list)
    /\ (forall e w',
          write_file env target (http.body r) (printed line (logged url w)) = (Raise e, w') ->
          download_asset env (JStr url) tempdir w = (Raise e, w')
          /\ (exists cls, e = library_error env cls target)
          /\ fs w' = fs w
          /\ requests w' = (requests w ++ [url])%list
          /\ stdout w' = (stdout w ++ [line])%list)
    /\ (forall loc,
          locate env (fs w) target = At loc ->
          is_dir (fs w) loc = false -> ends_dotdot target = false ->
          fst (download_asset env (JStr url) tempdir w) = Ok target)
    /\ (stat env (fs w) target = Some Dir \/ (exists cls, locate env (fs w) target = Lost cls) ->
        exists e, fst (download_asset env (JStr url) tempdir w) = Raise e).
Proof.
  intros env url tempdir w r filename Hopen Hname target line.
  pose proof (download_asset_run env url tempdir w r filename Hopen Hname) as Hrun.
  fold target in Hrun. fold line in Hrun.
  split; [|split; [|split]].
  - intros w' Hw. rewrite Hw in Hrun. split; [exact Hrun|].
    pose proof (write_file_stat _ _ _ _ _ Hw) as [Hstat _]. split; [exact Hstat|].
    apply write_file_inv in Hw as (loc & Hloc & Hnot & ->).
    apply locate_place in Hloc as [-> _]. auto.
  - intros e w' Hw. rewrite Hw in Hrun. split; [exact Hrun|].
    apply write_file_inv in Hw as (-> & Hcls). auto.
  - intros loc Hloc Hnot Hdots. rewrite Hrun. unfold write_file.
    cbn [fs printed logged]. rewrite Hloc, Hnot, Hdots. reflexivity.
  - intros Hbad. rewrite Hrun. unfold write_file. cbn [fs printed logged].
    unfold stat in Hbad.
    destruct (locate env (fs w) target) as [loc|cls]; [|eauto].
    destruct Hbad as [Hdir|[cls Hcls]]; [|discriminate].
    destruct (is_dir (fs w) loc) eqn:E; [cbn [orb]; eauto|].
    exfalso. exact (is_dir_lookup _ _ E Hdir).
Qed.

Lemma download_asset_stores_body_witness :
  let env := Bench.env "x86_64" (fun _ => None) in
  let w := snd (makedirs env "/tmp/tmp0" Bench.w0) in
  let named (filename : string) : Env :=
    mkEnv "Linux" "x86_64"
          (fun _ => Some (http.mkResponse (Some filename) Bench.jdk16))
          (fun _ => None) (fun _ _ => None) Bench.mkdtemp (fun p => p) Bench.render
          ["work"] Bench.strerror Bench.tarfile_error true in
  (exists w' : World,
      download_asset env (JStr "https://example.org/jdk16.tgz") "/tmp/tmp0" w
      = (Ok "/tmp/tmp0/jdk16.tgz", w')
      /\ stat env (fs w') "/tmp/tmp0/jdk16.tgz" = Some (File Bench.jdk16)
      /\ requests w' = ["https://example.org/jdk16.tgz"])
  /\ fst (download_asset (named "a/b/c.tgz") (JStr "u") "/tmp/tmp0" w)
     = Raise (LibraryError "FileNotFoundError" "FileNotFoundError: '/tmp/tmp0/a/b/c.tgz'")
  /\ fst (download_asset (named "") (JStr "u") "/tmp/tmp0" w)
     = Raise (LibraryError "IsADirectoryError" "IsADirectoryError: '/tmp/tmp0/'").
Proof.
  intros env w named.
  destruct (download_asset_stores_body env "https://example.org/jdk16.tgz" "/tmp/tmp0" w
              (http.mkResponse (Some "jdk16.tgz") Bench.jdk16) "jdk16.tgz")
    as (Hok & _); [reflexivity | reflexivity |].
  split; [|split; vm_compute; reflexivity].
  destruct (Hok (snd (download_asset env (JStr "https://example.org/jdk16.tgz")
                        "/tmp/tmp0" w)))
    as (Hrun & Hstat & _ & _ & Hreq & _); [vm_compute; reflexivity|].
  eexists. split; [exact Hrun|]. split; [exact Hstat | exact Hreq].
Defined.

Lemma join_absolute a b : startswith_sep b = true -> os_path.join a b = b.
Proof. intros H. unfold os_path.join. rewrite H. reflexivity. Qed.

Lemma removed_lookup env tmp w loc :
  ~ place (getcwd env) tmp `prefix_of` loc ->
  fs (removed env tmp w) !! loc = fs w !! loc.
Proof.
  intros Hout. unfold removed. cbn [fs set_fs].
  destruct (fs w !! loc) as [x|] eqn:E.
  - apply map_lookup_filter_Some_2; [exact E | exact Hout].
  - apply map_lookup_filter_None_2. left. exact E.
Qed.

Lemma removed_lookup_inside env tmp w loc :
  place (getcwd env) tmp `prefix_of` loc ->
  fs (removed env tmp w) !! loc = None.
Proof.
  intros Hin. unfold removed. cbn [fs set_fs].
  apply map_lookup_filter_None_2. right. intros x _ Hout. exact (Hout Hin).
Qed.

(** X2. The file name comes from the server and is joined as it is: a
    name that starts with a slash replaces the temporary directory
    altogether.  A download that returns has then stored the body at that
    absolute path, whatever the temporary directory; and where the place
    of that path is not at or below the place of the temporary directory,
    the file is still there once the temporary directory has been
    removed. *)
Theorem download_asset_absolute_filename :
  forall (env : Env) (url tempdir : string) (w : World) (r : http.response)
         (filename p : string) (w' : World),
    urlopen env url = Some r ->
    http.get_filename r = Some filename ->
    startswith_sep filename = true ->
    download_asset env (JStr url) tempdir w = (Ok p, w') ->
    p = filename
    /\ stat env (fs w') filename = Some (File (http.body r))
    /\ fs w' !! place [] filename = Some (File (http.body r))
    /\ place (getcwd env) p = place [] filename
    /\ (~ place (getcwd env) tempdir `prefix_of` place [] filename ->
        fs (removed env tempdir w') !! place [] filename = Some (File (http.body r))).
Proof.
  intros env url tempdir w r filename p w' Hopen Hname Habs Hrun.
  rewrite (download_asset_run env url tempdir w r filename Hopen Hname) in Hrun.
  rewrite (join_absolute tempdir filename Habs) in Hrun.
  destruct (write_file env filename _ _) as [[[]|e] w1] eqn:Hw; [|discriminate].
  injection Hrun as <- <-.
  pose proof (write_file_stat _ _ _ _ _ Hw) as [Hstat _].
  assert (Hplace : place (getcwd env) filename = place [] filename)
    by (unfold place; rewrite Habs; reflexivity).
  assert (Hthere : fs w1 !! place [] filename = Some (File (http.body r))).
  { apply write_file_inv in Hw as (loc & Hloc & _ & ->).
    apply locate_place in Hloc as [-> _]. rewrite <- Hplace. apply lookup_insert_eq. }
  split; [reflexivity|]. split; [exact Hstat|]. split; [exact Hthere|].
  split; [exact Hplace|].
  intros Hout. rewrite removed_lookup by exact Hout. exact Hthere.
Qed.

Lemma download_asset_absolute_filename_witness :
  let env := mkEnv "Linux" "x86_64"
               (fun _ => Some (http.mkResponse (Some "/etc/cron.d/job")
                                               (bytes_of_string "* * * * *")))
               (fun _ => None) (fun _ _ => None) Bench.mkdtemp (fun p => p) Bench.render
               ["work"] Bench.strerror Bench.tarfile_error true in
  let w := created env "/tmp/tmp0" (snd (makedirs env "/etc/cron.d" Bench.w0)) in
  let w' := snd (download_asset env (JStr "https://example.org/jdk.sig") "/tmp/tmp0" w) in
  download_asset env (JStr "https://example.org/jdk.sig") "/tmp/tmp0" w
  = (Ok "/etc/cron.d/job", w')
  /\ fs (removed env "/tmp/tmp0" w') !! ["etc"; "cron.d"; "job"]
     = Some (File (bytes_of_string "* * * * *"))
  /\ fs (removed env "/tmp/tmp0" w') !! ["tmp"; "tmp0"] = None.
Proof.
  intros env w w'.
  destruct (download_asset_absolute_filename env "https://example.org/jdk.sig" "/tmp/tmp0"
              w (http.mkResponse (Some "/etc/cron.d/job") (bytes_of_string "* * * * *"))
              "/etc/cron.d/job" "/etc/cron.d/job" w')
    as (_ & _ & _ & _ & Hstays).
  - reflexivity.
  - reflexivity.
  - reflexivity.
  - vm_compute. reflexivity.
  - split; [vm_compute; reflexivity|]. split.
    + apply Hstays. intros [k Hk]. discriminate.
    + apply removed_lookup_inside. reflexivity.
Defined.

(** X3. When the server sends no file name the download raises after the
    request was sent and before anything is written or printed; the
    exception carries the format string and the URL as two arguments, the
    string never being formatted. *)
Theorem download_asset_filename_missing :
  forall (env : Env) (url tempdir : string) (w : World) (r : http.response),
    urlopen env url = Some r ->
    http.get_filename r = None ->
    download_asset env (JStr url) tempdir w
    = (Raise (Exception ["filename missing for url: %s"; url]), logged url w)
    /\ fs (logged url w) = fs w
    /\ stdout (logged url w) = stdout w.
Proof.
  intros env url tempdir w r Hopen Hname.
  split; [|repeat split].
  unfold download_asset, bind, http_get, raise.
  rewrite Hopen, Hname. reflexivity.
Qed.

Lemma download_asset_filename_missing_witness :
  let env := Bench.env "x86_64" (fun _ => None) in
  download_asset env (JStr (api_url "11" "x64")) "/tmp/tmp0" Bench.w0
  = (Raise (FilenameMissing (api_url "11" "x64")), logged (api_url "11" "x64") Bench.w0).
Proof.
  intros env.
  destruct (download_asset_filename_missing env (api_url "11" "x64") "/tmp/tmp0" Bench.w0
              (http.mkResponse None (bytes_of_string "11")))
    as (Hrun & _).
  - reflexivity.
  - reflexivity.
  - exact Hrun.
Defined.

(** ** The catalog client, whatever the answer *)

Lemma fetch_adoptium_world env version architecture w :
  snd (fetch_adoptium env version architecture w)
  = logged (api_url version architecture) w.
Proof.
  unfold fetch_adoptium, bind, http_get, lift, ret, raise.
  destruct (urlopen env (api_url version architecture)) as [r|]; [|reflexivity].
  destruct (json_loads env (http.body r)) as [data|]; [|reflexivity].
  destruct (len data) as [n|e]; [|reflexivity].
  destruct (n <=? 0); reflexivity.
Qed.

(** X4. A call of [fetch_adoptium] sends exactly one request, to the URL
    built from the version and the architecture, and changes nothing else:
    whether it returns or raises, the file system, the output and the
    temporary directories are those it found. *)
Theorem fetch_adoptium_one_request :
  forall (env : Env) (version architecture : string) (w : World),
    let w' := snd (fetch_adoptium env version architecture w) in
    requests w' = (requests w ++ [api_url version architecture])%list
    /\ fs w' = fs w /\ stdout w' = stdout w /\ tmpdirs w' = tmpdirs w.
Proof.
  intros env version architecture w w'. subst w'.
  rewrite fetch_adoptium_world. repeat split.
Qed.


(** ** The integrity verifier, on any input *)

(** X5. [verify_asset] only reads: whatever the asset holds and whether
    it returns or raises, the file system, the requests and the output are
    left as they were. *)
Theorem verify_asset_reads_only :
  forall (env : Env) (asset : pydict) (w : World), snd (verify_asset env asset w) = w.
Proof.
  intros env asset w.
  unfold verify_asset, bind, lift, getitem, ret, raise.
  destruct (dict_get asset "checksum") as [[| | |s| |]|]; try reflexivity.
  destruct (unhexlify s) as [b|]; [|reflexivity].
  destruct (dict_get asset "package") as [[| | |path| |]|]; try reflexivity.
  pose proof (read_file_world env path w) as Hw.
  destruct (read_file env path w) as [[content|e] w1]; cbn [snd] in Hw; subst w1;
    reflexivity.
Qed.

(** X6. The checksum is decoded before the package is opened: a checksum
    of odd length or with a character that is no hexadecimal digit makes
    [verify_asset] raise the decoding error, whether or not the package
    exists and whatever it holds. *)
Theorem verify_asset_invalid_hex :
  forall (env : Env) (asset : pydict) (w : World) (hex : string),
    dict_get asset "checksum" = Some (JStr hex) ->
    unhexlify hex = None ->
    verify_asset env asset w
    = (Raise (LibraryError "binascii.Error" (strerror env "binascii.Error" hex)), w).
Proof.
  intros env asset w hex Hc Hhex.
  unfold verify_asset, bind, lift, getitem, raise.
  rewrite Hc, Hhex. reflexivity.
Qed.

Lemma verify_asset_invalid_hex_witness :
  let asset : pydict := [("checksum", JStr "ba7816bf8f01cfea4141g");
                         ("package", JStr "/tmp/tmp0/jdk11.tar.gz")] in
  verify_asset (Bench.env "x86_64" (fun _ => None)) asset Bench.w0
  = (Raise (LibraryError "binascii.Error" "binascii.Error: 'ba7816bf8f01cfea4141g'"),
     Bench.w0).
Proof.
  intros asset.
  apply (verify_asset_invalid_hex (Bench.env "x86_64" (fun _ => None)) asset Bench.w0
           "ba7816bf8f01cfea4141g").
  - reflexivity.
  - reflexivity.
Defined.

Lemma length_be_bytes n x : length (be_bytes n x) = n.
Proof. induction n as [|n IH]; simpl; [reflexivity | rewrite IH; reflexivity]. Qed.

Lemma sha256_length msg : length (SHA256.sha256 msg) = 32%nat.
Proof.
  unfold SHA256.sha256, SHA256.output. cbn [flat_map].
  rewrite !length_app, !length_be_bytes. reflexivity.
Qed.

Lemma unhexlify_length_le (n : nat) :
  forall (s : string) (bs : bytes),
    (String.length s <= n)%nat ->
    unhexlify s = Some bs ->
    String.length s = (2 * length bs)%nat.
Proof.
  induction n as [|n IH]; intros s bs Hn H.
  - destruct s; [|simpl in Hn; lia]. injection H as <-. reflexivity.
  - destruct s as [|hi [|lo rest]]; cbn [unhexlify] in H.
    + injection H as <-. reflexivity.
    + discriminate.
    + destruct (hex_digit hi); [|discriminate].
      destruct (hex_digit lo); [|discriminate].
      destruct (unhexlify rest) as [bs'|] eqn:E; [|discriminate].
      injection H as <-. cbn [String.length length].
      rewrite (IH rest bs'); [lia | simpl in Hn; lia | exact E].
Qed.

Lemma unhexlify_length s bs :
  unhexlify s = Some bs -> String.length s = (2 * length bs)%nat.
Proof. apply (unhexlify_length_le (String.length s)). lia. Qed.

(** X7. A digest has 32 bytes, so a declared checksum that is valid
    hexadecimal but not 64 digits long never verifies, whatever the package
    holds.  The empty string is such a checksum: it is not [None], so it
    passes the guard of [get_jdk], and then fails here. *)
Theorem verify_asset_wrong_length :
  forall (env : Env) (asset : pydict) (w : World) (path hex : string)
         (declared content : bytes),
    dict_get asset "checksum" = Some (JStr hex) ->
    dict_get asset "package" = Some (JStr path) ->
    unhexlify hex = Some declared ->
    stat env (fs w) path = Some (File content) ->
    String.length hex <> 64%nat ->
    verify_asset env asset w = (Ok false, w).
Proof.
  intros env asset w path hex declared content Hc Hp Hhex Hfile Hlen.
  rewrite (verify_asset_run env asset w path hex declared content Hc Hp Hhex Hfile).
  rewrite bool_decide_false; [reflexivity|].
  intros Heq. apply Hlen.
  rewrite (unhexlify_length hex declared Hhex), Heq, sha256_length. reflexivity.
Qed.

Lemma verify_asset_wrong_length_witness :
  let env := Bench.env "x86_64" (fun _ => None) in
  let w := Bench.opt_java [("jdk11.tar.gz", File Bench.jdk11)] in
  verify_asset env [("checksum", JStr ""); ("package", JStr "/opt/java/jdk11.tar.gz")] w
  = (Ok false, w)
  /\ get (JObj [("checksum", JStr "")]) "checksum" = Ok (Some (JStr "")).
Proof.
  intros env w. split; [|reflexivity].
  apply (verify_asset_wrong_length env _ w "/opt/java/jdk11.tar.gz" "" [] Bench.jdk11).
  - reflexivity.
  - reflexivity.
  - reflexivity.
  - vm_compute. reflexivity.
  - discriminate.
Defined.


(** ** The orchestrator, one version at a time *)

(** X8. However the attempt at a version ends, nothing is left in its
    temporary directory: either the attempt stopped before the directory
    was made and the file system is untouched, or no place at or below the
    directory's holds anything afterwards, and no path leading there names
    anything. *)
Theorem process_version_removes_tempdir :
  forall (env : Env) (arch dir ver : string) (w : World),
    let tmpdirname := mkdtemp env (tmpdirs w) in
    let w' := snd (process_version env arch dir ver w) in
    fs w' = fs w
    \/ ((forall loc, place (getcwd env) tmpdirname `prefix_of` loc -> fs w' !! loc = None)
        /\ (forall p, place (getcwd env) tmpdirname <> [] ->
                      place (getcwd env) tmpdirname `prefix_of` place (getcwd env) p ->
                      stat env (fs w') p = None)).
Proof.
  intros env arch dir ver w tmpdirname w'. subst tmpdirname w'.
  destruct (process_version env arch dir ver w) as [res w'] eqn:Hres. cbn [snd].
  unfold process_version in Hres. unfold bind at 1 in Hres.
  pose proof (fetch_adoptium_world env ver arch w) as Hw.
  destruct (fetch_adoptium env ver arch w) as [[java_asset|e] w1]; cbn [snd] in Hw;
    subst w1; [|injection Hres as _ <-; left; reflexivity].
  unfold bind at 1 in Hres. unfold lift at 1 in Hres.
  destruct (getitem java_asset "binary") as [binary|e];
    [|injection Hres as _ <-; left; reflexivity].
  unfold bind at 1 in Hres. unfold lift at 1 in Hres.
  destruct (getitem binary "package") as [java_package|e];
    [|injection Hres as _ <-; left; reflexivity].
  unfold bind at 1 in Hres. unfold lift at 1 in Hres.
  destruct (get java_package "checksum") as [[checksum|]|e];
    [|injection Hres as _ <-; left; reflexivity
     |injection Hres as _ <-; left; reflexivity].
  right.
  assert (Hgone : forall loc, place (getcwd env) (mkdtemp env (tmpdirs w)) `prefix_of` loc ->
                              fs w' !! loc = None); [intros p Hp|].
  2: { split; [exact Hgone|]. intros p Hroot Hp. unfold stat.
       destruct (locate env (fs w') p) as [loc|cls] eqn:Hloc; [|reflexivity].
       apply locate_place in Hloc as [-> _].
       assert (His : is_dir (fs w') (place (getcwd env) p) = false).
       { unfold is_dir. destruct (place (getcwd env) p) as [|c l] eqn:E.
         - destruct Hp as [k Hk]. symmetry in Hk. apply app_eq_nil in Hk as [Hk _].
           congruence.
         - rewrite (Hgone _ Hp). reflexivity. }
       rewrite His. exact (Hgone _ Hp). }
  unfold bind in Hres. rewrite with_TemporaryDirectory_run in Hres.
  cbn [tmpdirs logged] in Hres.
  assert (Hw' : w' = removed env (mkdtemp env (tmpdirs w))
                       (snd (fetch_verified env dir ver java_package
                               (mkdtemp env (tmpdirs w))
                               (created env (mkdtemp env (tmpdirs w))
                                        (logged (api_url ver arch) w))))).
  { destruct (fetch_verified env dir ver java_package (mkdtemp env (tmpdirs w))
                (created env (mkdtemp env (tmpdirs w)) (logged (api_url ver arch) w)))
      as [[a|e] wx]; cbn [fst snd] in Hres; injection Hres as _ <-; reflexivity. }
  rewrite Hw'. apply removed_lookup_inside. exact Hp.
Qed.

Lemma process_version_removes_tempdir_witness :
  let env := Bench.env "x86_64" (Bench.catalog_of Bench.package11_bad Bench.package16) in
  let w := snd (makedirs env "/opt/java" Bench.w0) in
  let w' := snd (process_version env "x64" "/opt/java" "11" w) in
  fs w' !! ["tmp"; "tmp0"; "jdk11.tar.gz"] = None
  /\ fs w' !! ["tmp"; "tmp0"] = None
  /\ stat env (fs w') "/tmp/tmp0/jdk11.tar.gz" = None
  /\ stdout w'
     = ["created temporary directory [java 11]: /tmp/tmp0";
        "downloading asset: https://example.org/jdk11.tar.gz.sig to /tmp/tmp0/jdk11.tar.gz.sig";
        "downloading asset: https://example.org/jdk11.tar.gz to /tmp/tmp0/jdk11.tar.gz"].
Proof.
  intros env w w'.
  destruct (process_version_removes_tempdir env "x64" "/opt/java" "11" w)
    as [Hsame | [Hgone Hpaths]].
  - repeat split; vm_compute; reflexivity.
  - split; [apply Hgone; exists ["jdk11.tar.gz"]; reflexivity|].
    split; [apply Hgone; reflexivity|].
    split; [apply Hpaths; [discriminate | exists ["jdk11.tar.gz"]; reflexivity]|].
    vm_compute. reflexivity.
Defined.

Lemma verify_asset_true_inv env asset w w' :
  verify_asset env asset w = (Ok true, w') ->
  exists hex declared path content,
    dict_get asset "checksum" = Some (JStr hex)
    /\ unhexlify hex = Some declared
    /\ dict_get asset "package" = Some (JStr path)
    /\ stat env (fs w) path = Some (File content)
    /\ SHA256.sha256 content = declared
    /\ w' = w.
Proof.
  unfold verify_asset, bind, lift, getitem, ret, raise.
  destruct (dict_get asset "checksum") as [[| | |hex| |]|] eqn:Hc; try discriminate.
  destruct (unhexlify hex) as [declared|] eqn:Hhex; [|discriminate].
  destruct (dict_get asset "package") as [[| | |path| |]|] eqn:Hp; try discriminate.
  destruct (read_file env path w) as [[content|e] w1] eqn:Hread; [|discriminate].
  apply read_file_Ok in Hread as [-> Hfile].
  rewrite digest_read_into. intros H. injection H as Hb <-.
  apply bool_decide_eq_true in Hb.
  exists hex, declared, path, content. repeat split; congruence.
Qed.

Lemma shutil_copy_inv env src dst w w' :
  shutil_copy env src dst w = (Ok tt, w') ->
  exists stored content,
    stat env (fs w) src = Some (File content)
    /\ stat env (fs w') stored = Some (File content)
    /\ (stored = dst \/ stored = os_path.join dst (basename src))
    /\ same_channels w w'.
Proof.
  unfold shutil_copy.
  set (stored := match stat env (fs w) dst with
                 | Some Dir => os_path.join dst (basename src)
                 | _ => dst
                 end).
  assert (Hstored : stored = dst \/ stored = os_path.join dst (basename src))
    by (subst stored; destruct (stat env (fs w) dst) as [[|d]|]; auto).
  destruct (samefile env (fs w) src stored); [discriminate|].
  intros H. apply bind_Ok_inv in H as (content & w1 & Hread & Hwrite).
  apply read_file_Ok in Hread as [-> Hsrc].
  apply write_file_stat in Hwrite as [Hdst Hch].
  exists stored, content. auto.
Qed.

(** X9. What the body of the [with] block stores has the declared digest:
    when it returns an asset, the asset's checksum is valid hexadecimal, and
    the file it copied to the destination (at the asset's path, or inside
    it when that path was a directory) holds bytes whose SHA-256 digest is
    the decoded checksum. *)
Theorem fetch_verified_stores_verified_bytes :
  forall (env : Env) (dir ver : string) (java_package : json) (tmpdirname : string)
         (w : World) (asset : pydict) (w' : World),
    fetch_verified env dir ver java_package tmpdirname w = (Ok asset, w') ->
    exists (hex package path stored : string) (declared content : bytes),
      dict_get asset "checksum" = Some (JStr hex)
      /\ unhexlify hex = Some declared
      /\ dict_get asset "package" = Some (JStr package)
      /\ dict_get asset "path" = Some (JStr path)
      /\ SHA256.sha256 content = declared
      /\ stat env (fs w') stored = Some (File content)
      /\ (stored = path \/ stored = os_path.join path (basename package)).
Proof.
  intros env dir ver java_package tmpdirname w asset w'.
  unfold fetch_verified. intros H.
  apply bind_Ok_inv in H. destruct H as (_ & w1 & _ & H).
  apply bind_Ok_inv in H. destruct H as (name & w2 & _ & H).
  apply bind_Ok_inv in H. destruct H as (checksum & w3 & _ & H).
  apply bind_Ok_inv in H. destruct H as (signature_link & w4 & _ & H).
  apply bind_Ok_inv in H. destruct H as (signature & w5 & _ & H).
  apply bind_Ok_inv in H. destruct H as (link & w6 & _ & H).
  apply bind_Ok_inv in H. destruct H as (package & w7 & _ & H).
  apply bind_Ok_inv in H. destruct H as (verified & w8 & Hverify & H).
  destruct verified; cbn [negb] in H; [|discriminate].
  apply bind_Ok_inv in H. destruct H as (path & w9 & Hpath & H).
  apply bind_Ok_inv in H. destruct H as ([] & w10 & Hcopy & H).
  injection H as <- <-.
  destruct name as [| | |name| |]; try discriminate.
  injection Hpath as <- <-.
  apply verify_asset_true_inv in Hverify.
  destruct Hverify as (hex & declared & pkg & content & Hc & Hhex & Hp & Hfile & Hsha & ->).
  cbn in Hc, Hp. injection Hc as ->. injection Hp as <-.
  apply shutil_copy_inv in Hcopy.
  destruct Hcopy as (stored & content' & Hfile' & Hfs & Hstored & _).
  rewrite Hfile in Hfile'. injection Hfile' as <-.
  exists hex, package, (os_path.join dir name), stored, declared, content.
  repeat split; try reflexivity; assumption.
Qed.

Lemma fetch_verified_stores_verified_bytes_witness :
  let env := Bench.env "x86_64" (fun _ => None) in
  let w := created env "/tmp/tmp0" (snd (makedirs env "/opt/java" Bench.w0)) in
  let w' := snd (fetch_verified env "/opt/java" "11" (JObj Bench.package11) "/tmp/tmp0" w) in
  exists (stored : string) (content : bytes),
    stat env (fs w') stored = Some (File content)
    /\ unhexlify Bench.sha_jdk11 = Some (SHA256.sha256 content)
    /\ (stored = "/opt/java/jdk11.tar.gz"
        \/ stored = os_path.join "/opt/java/jdk11.tar.gz" (basename "/tmp/tmp0/jdk11.tar.gz")).
Proof.
  intros env w w'.
  destruct (fetch_verified_stores_verified_bytes env "/opt/java" "11"
              (JObj Bench.package11) "/tmp/tmp0" w
              [("name", JStr "jdk11.tar.gz"); ("checksum", JStr Bench.sha_jdk11);
               ("signature", JStr "/tmp/tmp0/jdk11.tar.gz.sig");
               ("package", JStr "/tmp/tmp0/jdk11.tar.gz");
               ("path", JStr "/opt/java/jdk11.tar.gz")] w')
    as (hex & package & path & stored & declared & content
        & Hc & Hhex & Hp & Hpath & Hsha & Hfile & Hstored).
  - vm_compute. reflexivity.
  - injection Hc as <-. injection Hp as <-. injection Hpath as <-.
    exists stored, content. split; [exact Hfile|].
    split; [rewrite Hsha; exact Hhex | exact Hstored].
Defined.

(** X10. An empty catalog answer for one version ends the whole run: the
    script raises CatalogEmpty in the world left by that one request,
    whatever versions were still to come and whatever output was asked for,
    so no later version is requested and nothing is dumped. *)
Theorem empty_catalog_aborts_run :
  forall (env : Env) (directory : string) (o : option string) (w w0 : World)
         (arch : string) (pre : list string) (ver : string) (rest : list string)
         (acc : list pydict) (w1 : World) (r : http.response),
    makedirs env (abspath env directory) w = (Ok tt, w0) ->
    architecture (system_facts env) = Some arch ->
    java_versions = (pre ++ ver :: rest)%list ->
    for_versions env arch (abspath env directory) pre [] w0 = (Ok acc, w1) ->
    urlopen env (api_url ver arch) = Some r ->
    json_loads env (http.body r) = Some (JArr []) ->
    main env directory o w = (Raise CatalogEmpty, logged (api_url ver arch) w1).
Proof.
  intros env directory o w w0 arch pre ver rest acc w1 r
         Hmk Harch Hsplit Hpre Hopen Hloads.
  unfold main, pipeline.
  unfold bind at 1. unfold bind at 1. rewrite Hmk.
  unfold bind at 1. unfold get_jdk. rewrite Harch, Hsplit.
  rewrite (for_versions_app _ _ _ _ _ _ _ _ _ Hpre).
  rewrite (for_versions_raise env arch _ ver rest acc w1 CatalogEmpty
             (logged (api_url ver arch) w1)); [reflexivity|].
  unfold process_version. apply bind_Raise.
  rewrite (fetch_adoptium_run env ver arch w1 r (JArr []) Hopen Hloads). reflexivity.
Qed.

Lemma empty_catalog_aborts_run_witness :
  let env := Bench.env "x86_64" (fun _ => Some (JArr [])) in
  exists w' : World,
    main env "/opt/java" None Bench.w0 = (Raise CatalogEmpty, w')
    /\ requests w' = [api_url "11" "x64"]
    /\ stdout w' = [].
Proof.
  intros env. eexists. split.
  - apply (empty_catalog_aborts_run env "/opt/java" None Bench.w0
             (snd (makedirs env "/opt/java" Bench.w0)) "x64" [] "11" ["16"] []
             (snd (makedirs env "/opt/java" Bench.w0))
             (http.mkResponse None (bytes_of_string "11"))).
    + reflexivity.
    + reflexivity.
    + reflexivity.
    + reflexivity.
    + reflexivity.
    + reflexivity.
  - split; reflexivity.
Defined.

(** ** The archive extractor, when it fails *)



(** X12. The extraction loop works on what is already on disk: however
    many assets it is given and however each extraction ends, it sends no
    request and makes no temporary directory. *)
Theorem extract_all_offline :
  forall (env : Env) (assets extracted_assets : list pydict) (w : World),
    requests (snd (extract_all env assets extracted_assets w)) = requests w
    /\ tmpdirs (snd (extract_all env assets extracted_assets w)) = tmpdirs w.
Proof.
  intros env assets acc w.
  destruct (extract_all_total env assets acc w)
    as (kept & lines & w' & Hrun & _ & _ & _ & _ & Hreq & Htmp).
  rewrite Hrun. auto.
Qed.

(** ** The dump onto a directory *)

(** X13. When [-o] names a directory the run does all its work and then
    loses the result: the file cannot be opened, the handler prints the
    error, the [finally] clause fails on the name that was never bound, and
    the script ends with [NameError], the list written nowhere. *)
Theorem dump_onto_directory_loses_output :
  forall (env : Env) (directory path : string) (w : World) (xs : list pydict)
         (w2 : World),
    pipeline env directory w = (Ok xs, w2) ->
    path <> "" ->
    stat env (fs w2) path = Some Dir ->
    exists line : string,
      main env directory (Some path) w
      = (Raise (NameError "name 'outputFile' is not defined"), printed line w2)
      /\ fs (printed line w2) = fs w2
      /\ stdout (printed line w2) = (stdout w2 ++ [line])%list.
Proof.
  intros env directory path w xs w2 Hrun Hpath Hdir.
  exists (str_exn (library_error env "IsADirectoryError" path)).
  split; [|split; reflexivity].
  unfold main. rewrite (bind_Ok _ _ _ _ _ Hrun).
  destruct path as [|c path]; [congruence|].
  unfold dump, try_except, write_file, bind, print, raise.
  unfold stat in Hdir.
  destruct (locate env (fs w2) (String c path)) as [loc|cls]; [|discriminate].
  destruct (is_dir (fs w2) loc) eqn:E; [reflexivity|].
  exfalso. exact (is_dir_lookup _ _ E Hdir).
Qed.

Lemma dump_onto_directory_loses_output_witness :
  let env := Bench.env "x86_64"
               (Bench.catalog_of (Bench.without "checksum" Bench.package11)
                                 (Bench.without "checksum" Bench.package16)) in
  exists (line : string) (w2 : World),
    main env "/opt/java" (Some "/opt/java") Bench.w0
    = (Raise (NameError "name 'outputFile' is not defined"), printed line w2)
    /\ fs w2 = <[ ["opt"; "java"] := Dir ]> (<[ ["opt"] := Dir ]> (fs Bench.w0)).
Proof.
  intros env.
  destruct (dump_onto_directory_loses_output env "/opt/java" "/opt/java" Bench.w0 []
              (snd (pipeline env "/opt/java" Bench.w0)))
    as (line & Hmain & _).
  - vm_compute. reflexivity.
  - discriminate.
  - vm_compute. reflexivity.
  - exists line, (snd (pipeline env "/opt/java" Bench.w0)).
    split; [exact Hmain | vm_compute; reflexivity].
Defined.

(** ** The platform resolver, on every machine name *)

(** X14. The resolver knows four machine names and is exact about them:
    a machine resolves to a token if and only if the pair is one of
    AMD64/x64, x86_64/x64, i386/x32, x86/x86, the names compared as they
    are, case included. *)
Theorem architecture_resolution :
  forall (env : Env) (token : string),
    architecture (system_facts env) = Some token
    <-> In (platform_machine env, token)
           [("AMD64", "x64"); ("x86_64", "x64"); ("i386", "x32"); ("x86", "x86")].
Proof.
  intros env token. unfold system_facts. cbn [architecture].
  unfold architecture_map. rewrite <- list_elem_of_In.
  symmetry. apply elem_of_list_to_map.
  cbn. repeat (constructor; [rewrite ?list_elem_of_In; simpl; intuition discriminate|]).
  constructor.
Qed.

Lemma architecture_resolution_witness :
  architecture (system_facts (Bench.env "i386" (fun _ => None))) = Some "x32"
  /\ architecture (system_facts (Bench.env "amd64" (fun _ => None))) <> Some "x64".
Proof.
  split.
  - apply (architecture_resolution (Bench.env "i386" (fun _ => None)) "x32").
    simpl. tauto.
  - intros H.
    apply (architecture_resolution (Bench.env "amd64" (fun _ => None)) "x64") in H.
    simpl in H. intuition discriminate.
Defined.

(** ** Paths: where a stored archive is extracted *)

Lemma has_sep_app a b : has_sep (a ++ b) = has_sep a || has_sep b.
Proof.
  induction a as [|c a IH]; [reflexivity|].
  rewrite append_cons. cbn [has_sep]. rewrite IH, orb_assoc. reflexivity.
Qed.

Lemma head_of_app_sep dir name :
  has_sep name = false ->
  head_of (dir ++ String sep name) = dir ++ String sep EmptyString.
Proof.
  intros Hname. induction dir as [|c dir IH].
  - change ("" ++ String sep name) with (String sep name).
    cbn [head_of]. rewrite Hname. reflexivity.
  - rewrite !append_cons. cbn [head_of]. rewrite has_sep_app. cbn [has_sep]. rewrite Ascii.eqb_refl, orb_true_r, IH.
    reflexivity.
Qed.

Lemma endswith_sep_cons c s :
  endswith (String c s) "/" = (Ascii.eqb c sep && String.eqb s "") || endswith s "/".
Proof. reflexivity. Qed.

Lemma rstrip_sep_app_sep dir :
  dir <> "" ->
  endswith dir "/" = false ->
  rstrip_sep (dir ++ String sep EmptyString) = dir.
Proof.
  induction dir as [|c dir IH]; intros Hne Hend; [congruence|].
  rewrite endswith_sep_cons in Hend. apply orb_false_elim in Hend.
  destruct Hend as [Hc Hrest].
  rewrite append_cons. cbn [rstrip_sep].
  destruct dir as [|c' dir'].
  - change ("" ++ String sep "") with (String sep "").
    cbn. cbn in Hc. rewrite andb_true_r in Hc. rewrite Hc. reflexivity.
  - rewrite IH; [reflexivity | discriminate | exact Hrest].
Qed.

Lemma has_sep_startswith name : has_sep name = false -> startswith_sep name = false.
Proof.
  destruct name as [|c name]; [reflexivity|]. cbn.
  intros H. apply orb_false_elim in H. tauto.
Qed.

(** X15. Joining a directory with a name that holds no slash and taking
    the directory of the result gives the directory back, provided it is
    the root or is not empty and has no trailing slash.  So an archive that
    [get_jdk] stores under its catalog name is extracted into the
    destination directory itself. *)
Theorem dirname_join :
  forall dir name : string,
    has_sep name = false ->
    dir = "/" \/ (dir <> "" /\ endswith dir "/" = false) ->
    os_path.dirname (os_path.join dir name) = dir.
Proof.
  intros dir name Hname Hdir.
  unfold os_path.join. rewrite (has_sep_startswith name Hname).
  destruct Hdir as [-> | [Hne Hend]].
  - replace (String.eqb "/" "" || endswith "/" "/") with true by reflexivity.
    change ("/" ++ name) with (String sep name).
    unfold os_path.dirname. cbn [head_of]. rewrite Hname. reflexivity.
  - rewrite Hend, orb_false_r.
    destruct (String.eqb_spec dir ""); [congruence|].
    unfold os_path.dirname.
    change (dir ++ "/" ++ name) with (dir ++ String sep name).
    rewrite (head_of_app_sep dir name Hname), (rstrip_sep_app_sep dir Hne Hend).
    destruct dir; [congruence | reflexivity].
Qed.

Lemma dirname_join_witness :
  os_path.dirname (os_path.join "/opt/java" "jdk11.tar.gz") = "/opt/java"
  /\ os_path.dirname (os_path.join "/" "jdk11.tar.gz") = "/".
Proof.
  split.
  - apply dirname_join; [reflexivity|]. right. split; [discriminate | reflexivity].
  - apply dirname_join; [reflexivity|]. left. reflexivity.
Defined.

(** ** The loop over the versions: how many assets *)

Lemma for_versions_length env arch dir versions :
  forall acc w assets w',
    for_versions env arch dir versions acc w = (Ok assets, w') ->
    (length acc <= length assets <= length acc + length versions)%nat.
Proof.
  induction versions as [|ver rest IH]; intros acc w assets w' H.
  - cbn in H. injection H as <- _. cbn. lia.
  - cbn [for_versions] in H.
    apply bind_Ok_inv in H. destruct H as (r & w1 & _ & H).
    apply IH in H. destruct r; cbn beta iota in H; rewrite ?length_app in H;
      cbn [length] in *; lia.
Qed.

(** X16. [get_jdk] returns at most one asset for each of its two
    versions: a run that completes hands the extraction loop zero, one or
    two assets, never more. *)
Theorem get_jdk_at_most_one_per_version :
  forall (env : Env) (asset_dir : string) (w : World) (assets : list pydict)
         (w' : World),
    get_jdk env asset_dir w = (Ok assets, w') ->
    (length assets <= length java_versions)%nat /\ length java_versions = 2%nat.
Proof.
  intros env asset_dir w assets w'. unfold get_jdk.
  destruct (architecture (system_facts env)) as [arch|]; [|discriminate].
  intros H. apply for_versions_length in H. unfold java_versions in *.
  cbn [length] in *. split; [lia | reflexivity].
Qed.

Lemma get_jdk_at_most_one_per_version_witness :
  let env := Bench.env "x86_64"
               (Bench.catalog_of (Bench.without "checksum" Bench.package11)
                                 Bench.package16) in
  let w := snd (makedirs env "/opt/java" Bench.w0) in
  exists assets : list pydict,
    fst (get_jdk env "/opt/java" w) = Ok assets /\ (length assets <= 2)%nat.
Proof.
  intros env w.
  pose (asset := [("name", JStr "jdk16.tgz"); ("checksum", JStr Bench.sha_jdk16);
                  ("signature", JStr "/tmp/tmp0/jdk16.tgz.sig");
                  ("package", JStr "/tmp/tmp0/jdk16.tgz");
                  ("path", JStr "/opt/java/jdk16.tgz")] : pydict).
  assert (Hrun : get_jdk env "/opt/java" w
                 = (Ok [asset], snd (get_jdk env "/opt/java" w)))
    by (vm_compute; reflexivity).
  destruct (get_jdk_at_most_one_per_version env "/opt/java" w [asset] _ Hrun) as [Hlen _].
  exists [asset]. split; [rewrite Hrun; reflexivity | exact Hlen].
Defined.

(** ** The query of the catalog URL *)

Lemma list_ascii_of_string_app a b :
  list_ascii_of_string (a ++ b)
  = (list_ascii_of_string a ++ list_ascii_of_string b)%list.
Proof.
  induction a as [|c a IH]; [reflexivity|].
  rewrite append_cons. cbn [list_ascii_of_string app]. rewrite IH. reflexivity.
Qed.

Lemma quoted_character_safe (c : ascii) :
  forallb (fun x => unreserved x || Ascii.eqb x "+" || Ascii.eqb x "%")
          (list_ascii_of_string
             (if unreserved c then String c EmptyString
              else if Ascii.eqb c " " then "+"
              else String "%"
                     (String (HEX_char (Z.of_N (N_of_ascii c) / 16))
                        (String (HEX_char (Z.of_N (N_of_ascii c) mod 16)) EmptyString))))
  = true.
Proof.
  destruct c as [[] [] [] [] [] [] [] []]; vm_compute; reflexivity.
Qed.

(** X17. A value is quoted character by character: what [quote_plus]
    returns holds only letters, digits, [_], [.], [-], [~], [+] and [%], so
    no architecture string can add [&], [=], [?], [#] or [/] to the query
    that [fetch_adoptium] sends; a value made of unreserved characters only
    is left as it is. *)
Theorem quote_plus_safe_characters :
  forall s : string,
    (forall c, In c (list_ascii_of_string (quote_plus s)) ->
               unreserved c = true \/ c = "+"%char \/ c = "%"%char)
    /\ (forallb unreserved (list_ascii_of_string s) = true -> quote_plus s = s).
Proof.
  intros s. split.
  - induction s as [|c rest IH]; intros x Hx; [destruct Hx|].
    cbn [quote_plus] in Hx. cbv zeta in Hx.
    rewrite list_ascii_of_string_app in Hx. apply in_app_or in Hx.
    destruct Hx as [Hx | Hx]; [|apply IH; exact Hx].
    pose proof (quoted_character_safe c) as Hsafe.
    rewrite forallb_forall in Hsafe. specialize (Hsafe x Hx).
    apply orb_prop in Hsafe. destruct Hsafe as [Hsafe | Hsafe].
    + apply orb_prop in Hsafe. destruct Hsafe as [Hsafe | Hsafe]; [left; exact Hsafe|].
      right. left. apply Ascii.eqb_eq. exact Hsafe.
    + right. right. apply Ascii.eqb_eq. exact Hsafe.
  - induction s as [|c rest IH]; intros H; [reflexivity|].
    cbn [list_ascii_of_string forallb] in H. apply andb_prop in H.
    destruct H as [Hc Hrest].
    cbn [quote_plus]. cbv zeta. rewrite Hc, (IH Hrest). reflexivity.
Qed.

Lemma quote_plus_safe_characters_witness :
  quote_plus "x64" = "x64"
  /\ ~ In "&"%char (list_ascii_of_string (quote_plus "x64&os=windows")).
Proof.
  split.
  - apply (quote_plus_safe_characters "x64"). reflexivity.
  - intros Hin.
    destruct (proj1 (quote_plus_safe_characters "x64&os=windows") "&"%char Hin)
      as [H | [H | H]]; discriminate.
Defined.
